(** * research-paper-mcp: the tool handlers of [server.py]

    A shallow embedding of the six tool handlers, of [handle_call_tool] and
    of [handle_list_tools], followed by the properties the specification
    states about them.

    Python values that travel through the handlers are JSON values; a
    [str] is a sequence of Unicode code points.  Calls that leave the
    process (the arXiv client, the HTTP session, the file write) and the
    few interpreter builtins whose tables are not reproduced here are
    fields of an environment [Env] that every handler takes. *)

From Stdlib Require Import ZArith NArith Strings.String Strings.Ascii Lia.
From stdpp Require Import gmap strings list pretty.

Set Warnings "-register-all".

(** ** Strings *)

(** A Python [str]: its code points, in order. *)
Abbreviation pystr := (list N).

(** A literal of the source, as the code points of its (ASCII) characters. *)
Definition u (s : string) : pystr := (λ a, N_of_ascii a) <$> list_ascii_of_string s.

(** A [bytes] object. *)
Abbreviation pybytes := (list N).

(** ** Values *)

(** The values [json.loads] produces and [json.dumps] accepts.  A float is
    kept as its binary64 bit pattern: the handlers never compute with one. *)
Inductive pyval :=
| PNone
| PBool (b : bool)
| PInt (z : Z)
| PFloat (bits : Z)
| PStr (s : pystr)
| PList (l : list pyval)
| PDict (d : gmap pystr pyval).

(** A [dict] with [str] keys. *)
Abbreviation dict := (gmap pystr pyval) (only parsing).

(** [type(v).__name__] *)
Definition type_name (v : pyval) : string :=
  match v with
  | PNone => "NoneType"
  | PBool _ => "bool"
  | PInt _ => "int"
  | PFloat _ => "float"
  | PStr _ => "str"
  | PList _ => "list"
  | PDict _ => "dict"
  end.

(** ** Exceptions and outcomes *)

(** An instance of [Exception]: its class and [str(e)]. *)
Record exn := Exn { exc_class : string; exc_message : pystr }.

Definition TypeError (m : pystr) : exn := Exn "TypeError" m.
Definition AttributeError (m : pystr) : exn := Exn "AttributeError" m.
Definition ValueError (m : pystr) : exn := Exn "ValueError" m.
Definition Exception (m : pystr) : exn := Exn "Exception" m.

Inductive outcome (A : Type) :=
| Returned (a : A)
| Raised (e : exn).
Arguments Returned {A} a.
Arguments Raised {A} e.

(** ** The handler monad: a file store threaded through, and exceptions *)

(** The files under the download directory: path to content. *)
Abbreviation FS := (gmap pystr pybytes) (only parsing).

Definition Py (A : Type) : Type := FS → outcome A * FS.

Definition ret {A} (a : A) : Py A := λ fs, (Returned a, fs).
Definition raise {A} (e : exn) : Py A := λ fs, (Raised e, fs).
Definition bind {A B} (m : Py A) (k : A → Py B) : Py B :=
  λ fs, match m fs with
        | (Returned a, fs') => k a fs'
        | (Raised e, fs') => (Raised e, fs')
        end.
(** An outcome decided outside the store (a builtin, a collaborator). *)
Definition lift {A} (o : outcome A) : Py A := λ fs, (o, fs).

(** [try: body / except Exception as e: handler(e)] *)
Definition try_except {A} (body : Py A) (handler : exn → Py A) : Py A :=
  λ fs, match body fs with
        | (Returned a, fs') => (Returned a, fs')
        | (Raised e, fs') => handler e fs'
        end.

Declare Scope py_scope.
Delimit Scope py_scope with py.
Notation "'let*' x ':=' m 'in' k" := (bind m (λ x, k))
  (at level 10, x name, m at level 100, k at level 200) : py_scope.
Notation "'run' m 'in' k" := (bind m (λ _, k))
  (at level 10, m at level 100, k at level 200) : py_scope.
Open Scope py_scope.

(** ** String builtins *)

Definition ch (a : ascii) : N := N_of_ascii a.

Definition is_ascii (c : N) : bool := (c <? 128)%N.

(** [str.isspace] on one code point, which is also what [\s] matches and
    what [str.strip] removes. *)
Definition isspace (c : N) : bool :=
  ((9 <=? c) && (c <=? 13) || (28 <=? c) && (c <=? 32)
   || (c =? 133) || (c =? 160) || (c =? 5760)
   || (8192 <=? c) && (c <=? 8202)
   || (c =? 8232) || (c =? 8233) || (c =? 8239) || (c =? 8287) || (c =? 12288))%N.

Definition ascii_isalnum (c : N) : bool :=
  ((48 <=? c) && (c <=? 57) || (65 <=? c) && (c <=? 90) || (97 <=? c) && (c <=? 122))%N.

Definition ascii_lower (c : N) : N :=
  if ((65 <=? c) && (c <=? 90))%N then (c + 32)%N else c.

Fixpoint dropwhile (p : N → bool) (s : pystr) : pystr :=
  match s with
  | [] => []
  | c :: s' => if p c then dropwhile p s' else s
  end.

(** [s.strip()] *)
Definition strip (s : pystr) : pystr :=
  reverse (dropwhile isspace (reverse (dropwhile isspace s))).

Fixpoint startswith (p s : pystr) : bool :=
  match p, s with
  | [], _ => true
  | _ :: _, [] => false
  | a :: p', b :: s' => (a =? b)%N && startswith p' s'
  end.

(** [needle in hay] *)
Fixpoint contains (needle hay : pystr) : bool :=
  startswith needle hay ||
  match hay with
  | [] => false
  | _ :: hay' => contains needle hay'
  end.

(** [s.split(sep)] for a one-character separator: never empty. *)
Fixpoint split_on (sep : N) (cur : pystr) (s : pystr) : list pystr :=
  match s with
  | [] => [reverse cur]
  | c :: s' => if (c =? sep)%N then reverse cur :: split_on sep [] s'
               else split_on sep (c :: cur) s'
  end.
Definition str_split (s : pystr) (sep : N) : list pystr := split_on sep [] s.

(** [str(n)] for an [int] *)
Definition str_of_int (z : Z) : pystr := u (pretty z).

(** ** Builtins that can raise *)

Definition no_attribute (v : pyval) (attr : string) : exn :=
  AttributeError (u ("'" ++ type_name v ++ "' object has no attribute '" ++ attr ++ "'")).

(** [len(v)] *)
Definition py_len (v : pyval) : outcome Z :=
  match v with
  | PStr s => Returned (Z.of_nat (length s))
  | PList l => Returned (Z.of_nat (length l))
  | PDict d => Returned (Z.of_nat (size d))
  | _ => Raised (TypeError (u ("object of type '" ++ type_name v ++ "' has no len()")))
  end.

(** [v.get(key, dflt)]: only a [dict] has the method. *)
Definition py_get (v : pyval) (key : string) (dflt : pyval) : outcome pyval :=
  match v with
  | PDict d => Returned (default dflt (d !! u key))
  | _ => Raised (no_attribute v "get")
  end.

(** The items a [for] loop or [str.join] draws from [v]; [not_iterable]
    is the exception of the caller for a value that has no iterator.  A
    dict gives its keys; Python gives them in insertion order, which a
    [gmap] does not record, so nothing below is drawn from the order of
    the keys of a dict. *)
Definition py_iter (v : pyval) (not_iterable : exn) : outcome (list pyval) :=
  match v with
  | PList l => Returned l
  | PStr s => Returned ((λ c, PStr [c]) <$> s)
  | PDict d => Returned ((λ kv, PStr kv.1) <$> map_to_list d)
  | _ => Raised not_iterable
  end.

Definition not_iterable (v : pyval) : exn :=
  TypeError (u ("'" ++ type_name v ++ "' object is not iterable")).

(** The loop of [str.join] over the items: each one must be a [str]. *)
Fixpoint join_items (sep : pystr) (i : nat) (items : list pyval) : outcome pystr :=
  match items with
  | [] => Returned []
  | v :: rest =>
      match v with
      | PStr s =>
          match rest with
          | [] => Returned s
          | _ :: _ =>
              match join_items sep (S i) rest with
              | Returned t => Returned (s ++ sep ++ t)
              | Raised e => Raised e
              end
          end
      | _ => Raised (TypeError (u ("sequence item " ++ pretty i ++ ": expected str instance, "
                                     ++ type_name v ++ " found")))
      end
  end.

(** [sep.join(v)] *)
Definition str_join (sep : pystr) (v : pyval) : outcome pystr :=
  match py_iter v (TypeError (u "can only join an iterable")) with
  | Returned items => join_items sep 0 items
  | Raised e => Raised e
  end.

(** ** The two regular expressions of the source *)

(** [[.!?]] *)
Definition is_terminator (c : N) : bool :=
  ((c =? ch ".") || (c =? ch "!") || (c =? ch "?"))%N.

(** The scan of [re.split(r'[.!?]\s+', s)]: a terminator followed by at
    least one whitespace closes the current piece, and the whole run of
    whitespace after it belongs to the separator ([in_sep]). *)
Fixpoint split_scan (in_sep : bool) (cur : pystr) (s : pystr) : list pystr :=
  match s with
  | [] => [reverse cur]
  | c :: s' =>
      if in_sep && isspace c then split_scan true cur s'
      else if is_terminator c && match s' with w :: _ => isspace w | [] => false end
      then reverse cur :: split_scan true [] s'
      else split_scan false (c :: cur) s'
  end.

Definition re_split_sentences (s : pystr) : list pystr := split_scan false [] s.

Definition expected_string (v : pyval) : exn :=
  TypeError (u ("expected string or bytes-like object, got '" ++ type_name v ++ "'")).

(** ** What the handlers exchange with the outside *)

(** [json.dumps(obj, indent=...)]: the text is kept as the object it
    serialises and the indentation asked for. *)
Record json_text := json_dumps { dumped : pyval; indent : option nat }.

(** [types.TextContent] *)
Record TextContent := mkTextContent { type_ : pystr; text : json_text }.

(** [types.Tool] *)
Record Tool := mkTool { name : pystr; description : pystr; inputSchema : pyval }.

(** [arxiv.SortCriterion] *)
Inductive SortCriterion := Relevance | LastUpdatedDate | SubmittedDate.

(** A [datetime], known through [isoformat()] only. *)
Record datetime := mkDatetime { isoformat : pystr }.

(** The attributes of an [arxiv.Result] that [search_arxiv] reads. *)
Record ArxivResult := mkArxivResult {
  entry_id : pystr;
  title : pystr;
  authors : list pystr;          (* [author.name] of each author *)
  summary : pystr;
  pdf_url : pyval;
  published : option datetime;
  updated : option datetime;
  categories : list pystr;
  primary_category : pystr
}.

(** An [aiohttp] response: its status and what each way of reading the
    body gives. *)
Record Response := mkResponse {
  status : Z;
  resp_json : outcome pyval;     (* [await response.json()] *)
  resp_text : outcome pystr;     (* [await response.text()] *)
  resp_read : outcome pybytes    (* [await response.read()] *)
}.

(** The environment of the server: interpreter tables that are not written
    out here, the configured directory, and the collaborators.  Opening and
    closing the [aiohttp.ClientSession] is part of [http_get]. *)
Record Env := mkEnv {
  uni_isalnum : N → bool;          (* [str.isalnum] beyond ASCII *)
  uni_lower : pystr → pystr;       (* [str.lower] of a non-ASCII string *)
  fmt_ext : pyval → pystr;         (* [str(v)] of a float, list or dict *)
  str_encode : pystr → outcome pybytes;     (* [s.encode()] *)
  md5_hexdigest : pybytes → pystr;          (* [hashlib.md5(b).hexdigest()] *)
  PAPERS_DIR : pystr;                       (* [str(PAPERS_DIR)] *)
  arxiv_results : pyval → pyval → SortCriterion → outcome (list ArxivResult);
  http_get : pyval → option dict → outcome Response;
  write_error : pystr → pybytes → option exn  (* why [write_bytes] fails, if it does *)
}.

Definition SEMANTIC_SCHOLAR_BASE_URL : pystr := u "https://api.semanticscholar.org/graph/v1".

Section Handlers.
Context (E : Env).

(** [\w]: alphanumeric or underscore *)
Definition is_word (c : N) : bool :=
  if is_ascii c then ascii_isalnum c || (c =? ch "_")%N else uni_isalnum E c.

(** [s.lower()] *)
Definition str_lower (s : pystr) : pystr :=
  if forallb is_ascii s then ascii_lower <$> s else uni_lower E s.

(** A replacement field [{v}] of an f-string *)
Definition py_format (v : pyval) : pystr :=
  match v with
  | PStr s => s
  | PInt z => str_of_int z
  | PBool true => u "True"
  | PBool false => u "False"
  | PNone => u "None"
  | _ => fmt_ext E v
  end.

(** [re.sub(r'[^\w\-]', '_', v)] *)
Definition sanitize (s : pystr) : pystr :=
  (λ c, if is_word c || (c =? ch "-")%N then c else ch "_") <$> s.

Definition re_sub_unsafe (v : pyval) : outcome pystr :=
  match v with
  | PStr s => Returned (sanitize s)
  | _ => Raised (expected_string v)
  end.

(** [re.split(r'[.!?]\s+', v)] *)
Definition re_split (v : pyval) : outcome (list pystr) :=
  match v with
  | PStr s => Returned (re_split_sentences s)
  | _ => Raised (expected_string v)
  end.

(** [base / name] and [str] of the result, for [pathlib] on POSIX: an
    absolute right operand replaces the left one. *)
Definition path_div (base name : pystr) : pystr :=
  if startswith (u "/") name then name else base ++ u "/" ++ name.

(** [path.write_bytes(content)] *)
Definition write_bytes (path : pystr) (content : pybytes) : Py unit :=
  λ fs, match write_error E path content with
        | Some e => (Raised e, fs)
        | None => (Returned tt, <[path := content]> fs)
        end.

(** [args.get(key, dflt)] on the argument dict *)
Definition args_get (args : dict) (key : string) (dflt : pyval) : pyval :=
  default dflt (args !! u key).

Definition text_content (obj : pyval) (ind : option nat) : TextContent :=
  mkTextContent (u "text") (json_dumps obj ind).

(** The Failure envelope: [{"success": false, "error": message}] *)
Definition failure_response (message : pystr) : list TextContent :=
  [text_content (PDict {[ u "success" := PBool false;
                          u "error" := PStr message ]}) None].

(** The [except Exception as e] clause every handler ends with. *)
Definition failure (e : exn) : Py (list TextContent) :=
  ret (failure_response (exc_message e)).

(** *** search_arxiv *)

(** [sort_map.get(sort_by_str, arxiv.SortCriterion.Relevance)]: the key is
    hashed first, which a list or a dict refuses. *)
Definition sort_map_get (sort_by_str : pyval) : outcome SortCriterion :=
  match sort_by_str with
  | PList _ | PDict _ =>
      Raised (TypeError (u ("unhashable type: '" ++ type_name sort_by_str ++ "'")))
  | PStr s =>
      if decide (s = u "relevance") then Returned Relevance
      else if decide (s = u "lastUpdatedDate") then Returned LastUpdatedDate
      else if decide (s = u "submittedDate") then Returned SubmittedDate
      else Returned Relevance
  | _ => Returned Relevance
  end.

Definition iso_or_none (d : option datetime) : pyval :=
  match d with
  | Some t => PStr (isoformat t)
  | None => PNone
  end.

Definition paper_data (result : ArxivResult) : pyval :=
  PDict {[ u "id" := PStr (List.last (str_split (entry_id result) (ch "/")) []);
           u "title" := PStr (title result);
           u "authors" := PList (PStr <$> authors result);
           u "abstract" := PStr (summary result);
           u "pdf_url" := pdf_url result;
           u "published" := iso_or_none (published result);
           u "updated" := iso_or_none (updated result);
           u "categories" := PList (PStr <$> categories result);
           u "primary_category" := PStr (primary_category result) ]}.

Definition search_arxiv (args : dict) : Py (list TextContent) :=
  let query := args_get args "query" (PStr (u "")) in
  let max_results := args_get args "max_results" (PInt 10) in
  let sort_by_str := args_get args "sort_by" (PStr (u "relevance")) in
  try_except
    (let* sort_by := lift (sort_map_get sort_by_str) in
     let* found := lift (arxiv_results E query max_results sort_by) in
     let results := paper_data <$> found in
     ret [text_content
            (PDict {[ u "success" := PBool true;
                      u "query" := query;
                      u "count" := PInt (Z.of_nat (length results));
                      u "papers" := PList results ]}) (Some 2%nat)])
    failure.

(** *** search_semantic_scholar *)

Definition search_semantic_scholar (args : dict) : Py (list TextContent) :=
  let query := args_get args "query" (PStr (u "")) in
  let fields := args_get args "fields"
                  (PList (PStr <$> [u "title"; u "authors"; u "abstract";
                                    u "citationCount"; u "year"])) in
  let limit := args_get args "limit" (PInt 10) in
  try_except
    (let url := SEMANTIC_SCHOLAR_BASE_URL ++ u "/paper/search" in
     let* joined := lift (str_join (u ",") fields) in
     let params : dict := {[ u "query" := query;
                             u "fields" := PStr joined;
                             u "limit" := limit ]} in
     let* response := lift (http_get E (PStr url) (Some params)) in
     if (status response =? 200)%Z then
       let* data := lift (resp_json response) in
       let* papers := lift (py_get data "data" (PList [])) in
       let* count := lift (py_len papers) in
       ret [text_content
              (PDict {[ u "success" := PBool true;
                        u "query" := query;
                        u "count" := PInt count;
                        u "papers" := papers ]}) (Some 2%nat)]
     else
       let* error_text := lift (resp_text response) in
       raise (Exception (u "HTTP " ++ str_of_int (status response) ++ u ": " ++ error_text)))
    failure.

(** *** download_paper *)

Definition download_paper (args : dict) : Py (list TextContent) :=
  let url := args_get args "url" (PStr (u "")) in
  let paper_id := args_get args "paper_id" (PStr (u "")) in
  try_except
    (let* safe_id := lift (re_sub_unsafe paper_id) in
     let pdf_path := path_div (PAPERS_DIR E) (safe_id ++ u ".pdf") in
     let* response := lift (http_get E url None) in
     if (status response =? 200)%Z then
       let* content := lift (resp_read response) in
       run write_bytes pdf_path content in
       ret [text_content
              (PDict {[ u "success" := PBool true;
                        u "paper_id" := paper_id;
                        u "file_path" := PStr pdf_path;
                        u "size_bytes" := PInt (Z.of_nat (length content)) ]}) None]
     else
       raise (Exception (u "HTTP " ++ str_of_int (status response))))
    failure.

(** *** extract_insights *)

Definition key_phrases : list pystr :=
  [u "we propose"; u "we demonstrate"; u "we show"; u "we present";
   u "our method"; u "our approach"; u "our results";
   u "achieve"; u "outperform"; u "improvement"; u "novel";
   u "state-of-the-art"; u "significant"; u "effective"].

(** [any(phrase in sentence.lower() for phrase in key_phrases)] *)
Definition has_key_phrase (sentence : pystr) : bool :=
  existsb (λ phrase, contains phrase (str_lower sentence)) key_phrases.

(** The [for sentence in sentences] loop, [insights] being the list built
    so far; the [break] leaves the rest of [sentences] unread. *)
Fixpoint collect_insights (sentences : list pystr) (insights : list pystr) : list pystr :=
  match sentences with
  | [] => insights
  | sentence :: rest =>
      let insights' :=
        if has_key_phrase sentence then
          if (50 <? length sentence)%nat && (length sentence <? 300)%nat
          then insights ++ [strip sentence]
          else insights
        else insights in
      if (10 <=? length insights')%nat then insights'
      else collect_insights rest insights'
  end.

Definition extract_insights (args : dict) : Py (list TextContent) :=
  let paper_text := args_get args "paper_text" (PStr (u "")) in
  let focus_areas := args_get args "focus_areas" (PList []) in
  (* the logging line measures [len(paper_text)] before the [try] *)
  run lift (py_len paper_text) in
  try_except
    (let* sentences := lift (re_split paper_text) in
     let insights := collect_insights sentences [] in
     ret [text_content
            (PDict {[ u "success" := PBool true;
                      u "insights" := PList (PStr <$> insights);
                      u "focus_areas" := focus_areas ]}) (Some 2%nat)])
    failure.

(** *** analyze_citations *)

Definition analyze_citations (args : dict) : Py (list TextContent) :=
  let paper_id := args_get args "paper_id" (PStr (u "")) in
  let depth := args_get args "depth" (PInt 1) in
  try_except
    (let url := SEMANTIC_SCHOLAR_BASE_URL ++ u "/paper/" ++ py_format paper_id in
     let params : dict :=
       {[ u "fields" :=
            PStr (u "title,citationCount,influentialCitationCount,citations,references") ]} in
     let* response := lift (http_get E (PStr url) (Some params)) in
     if (status response =? 200)%Z then
       let* data := lift (resp_json response) in
       let* title := lift (py_get data "title" PNone) in
       let* citation_count := lift (py_get data "citationCount" (PInt 0)) in
       let* influential := lift (py_get data "influentialCitationCount" (PInt 0)) in
       let* cited_by := lift (py_get data "citations" (PList [])) in
       let* n_citations := lift (py_len cited_by) in
       let* refs := lift (py_get data "references" (PList [])) in
       let* n_references := lift (py_len refs) in
       let citation_graph :=
         PDict {[ u "paper_id" := paper_id;
                  u "title" := title;
                  u "citation_count" := citation_count;
                  u "influential_citations" := influential;
                  u "citations" := PInt n_citations;
                  u "references" := PInt n_references ]} in
       ret [text_content
              (PDict {[ u "success" := PBool true;
                        u "citation_graph" := citation_graph ]}) (Some 2%nat)]
     else
       raise (Exception (u "HTTP " ++ str_of_int (status response))))
    failure.

(** *** store_paper_knowledge *)

(** [v.encode()] *)
Definition py_encode (v : pyval) : outcome pybytes :=
  match v with
  | PStr s => str_encode E s
  | _ => Raised (no_attribute v "encode")
  end.

Definition store_paper_knowledge (args : dict) : Py (list TextContent) :=
  let paper_metadata := args_get args "paper_metadata" (PDict ∅) in
  let insights := args_get args "insights" (PList []) in
  let techniques := args_get args "techniques" (PList []) in
  (* the logging line calls [paper_metadata.get] before the [try] *)
  run lift (py_get paper_metadata "title" (PStr (u "Unknown"))) in
  try_except
    (let* title_or_empty := lift (py_get paper_metadata "title" (PStr (u ""))) in
     let* encoded := lift (py_encode title_or_empty) in
     let digest := take 8 (md5_hexdigest E encoded) in
     let* paper_key := lift (py_get paper_metadata "id" (PStr digest)) in
     let entity_name := u "research_paper_" ++ py_format paper_key in
     let* title := lift (py_get paper_metadata "title" PNone) in
     let* author_list := lift (py_get paper_metadata "authors" (PList [])) in
     let* joined := lift (str_join (u ", ") author_list) in
     let* year := lift (py_get paper_metadata "year" (PStr (u "Unknown"))) in
     let* citations := lift (py_get paper_metadata "citationCount" (PInt 0)) in
     let observations :=
       [u "Title: " ++ py_format title;
        u "Authors: " ++ joined;
        u "Year: " ++ py_format year;
        u "Citations: " ++ py_format citations] in
     let* insight_items := lift (py_iter insights (not_iterable insights)) in
     let observations :=
       observations ++ ((λ insight, u "Insight: " ++ py_format insight) <$> insight_items) in
     let* technique_items := lift (py_iter techniques (not_iterable techniques)) in
     let observations :=
       observations ++ ((λ technique, u "Technique: " ++ py_format technique) <$> technique_items) in
     ret [text_content
            (PDict {[ u "success" := PBool true;
                      u "entity_name" := PStr entity_name;
                      u "observations_count" := PInt (Z.of_nat (length observations));
                      u "message" := PStr (u "Paper knowledge ready for storage in enhanced-memory") ]})
            None])
    failure.

(** *** handle_call_tool *)

(** [arguments or {}]: [None] and the empty dict are both falsy. *)
Definition or_empty (arguments : option dict) : dict :=
  match arguments with
  | Some d => if bool_decide (size d = 0%nat) then ∅ else d
  | None => ∅
  end.

Definition handle_call_tool (name : pystr) (arguments : option dict)
  : Py (list TextContent) :=
  if decide (name = u "search_arxiv") then search_arxiv (or_empty arguments)
  else if decide (name = u "search_semantic_scholar")
       then search_semantic_scholar (or_empty arguments)
  else if decide (name = u "download_paper") then download_paper (or_empty arguments)
  else if decide (name = u "extract_insights") then extract_insights (or_empty arguments)
  else if decide (name = u "analyze_citations") then analyze_citations (or_empty arguments)
  else if decide (name = u "store_paper_knowledge")
       then store_paper_knowledge (or_empty arguments)
  else raise (ValueError (u "Unknown tool: " ++ name)).

End Handlers.

(** ** handle_list_tools *)

(** A string literal as a value. *)
Definition lit (s : string) : pyval := PStr (u s).

(** [{"type": "object", "properties": ..., "required": [...]}] *)
Definition object_schema (properties : dict) (required : list string) : pyval :=
  PDict {[ u "type" := lit "object";
           u "properties" := PDict properties;
           u "required" := PList (lit <$> required) ]}.

(** [{"type": ty, "description": descr}] *)
Definition prop (ty descr : string) : dict :=
  {[ u "type" := lit ty; u "description" := lit descr ]}.

Definition string_array (descr : string) : dict :=
  {[ u "type" := lit "array";
     u "items" := PDict {[ u "type" := lit "string" ]};
     u "description" := lit descr ]}.

Definition with_default (p : dict) (dflt : pyval) : dict := <[ u "default" := dflt ]> p.

Definition search_arxiv_tool : Tool :=
  mkTool (u "search_arxiv")
    (u "Search arXiv for research papers by query. Returns paper metadata including title, authors, abstract, PDF URL, and publication date.")
    (object_schema
       {[ u "query" :=
            PDict (prop "string" "Search query (e.g., 'recursive self-improvement AGI', 'meta-learning neural networks')");
          u "max_results" :=
            PDict (with_default (prop "integer" "Maximum number of results to return") (PInt 10));
          u "sort_by" :=
            PDict (with_default
                     (<[ u "enum" := PList [lit "relevance"; lit "lastUpdatedDate"; lit "submittedDate"] ]>
                        (prop "string" "Sort order: relevance, lastUpdatedDate, or submittedDate"))
                     (lit "relevance")) ]}
       ["query"]).

Definition search_semantic_scholar_tool : Tool :=
  mkTool (u "search_semantic_scholar")
    (u "Search Semantic Scholar for papers with citation counts and influence metrics. Provides academic impact analysis.")
    (object_schema
       {[ u "query" := PDict (prop "string" "Search query");
          u "fields" :=
            PDict (with_default
                     (string_array "Fields to retrieve: title, authors, abstract, citationCount, influentialCitationCount, year, venue")
                     (PList [lit "title"; lit "authors"; lit "abstract"; lit "citationCount"; lit "year"]));
          u "limit" := PDict (with_default (prop "integer" "Maximum results") (PInt 10)) ]}
       ["query"]).

Definition download_paper_tool : Tool :=
  mkTool (u "download_paper")
    (u "Download research paper PDF from URL. Saves to local storage and returns file path.")
    (object_schema
       {[ u "url" := PDict (prop "string" "PDF URL (arXiv, Semantic Scholar, etc.)");
          u "paper_id" := PDict (prop "string" "Unique paper identifier for filename") ]}
       ["url"; "paper_id"]).

Definition extract_insights_tool : Tool :=
  mkTool (u "extract_insights")
    (u "Extract key insights, findings, and techniques from research paper text. Uses AI to identify important contributions.")
    (object_schema
       {[ u "paper_text" := PDict (prop "string" "Full paper text or abstract");
          u "focus_areas" :=
            PDict (with_default
                     (string_array "Optional specific areas to focus on (e.g., ['methodology', 'results', 'applications'])")
                     (PList [])) ]}
       ["paper_text"]).

Definition analyze_citations_tool : Tool :=
  mkTool (u "analyze_citations")
    (u "Analyze citation relationships and paper influence using Semantic Scholar citation graph.")
    (object_schema
       {[ u "paper_id" := PDict (prop "string" "Semantic Scholar paper ID or arXiv ID");
          u "depth" := PDict (with_default (prop "integer" "Citation graph depth (1-3)") (PInt 1)) ]}
       ["paper_id"]).

Definition store_paper_knowledge_tool : Tool :=
  mkTool (u "store_paper_knowledge")
    (u "Store extracted paper knowledge in enhanced-memory for AGI learning. Creates structured memory entities.")
    (object_schema
       {[ u "paper_metadata" := PDict (prop "object" "Paper metadata (title, authors, year, etc.)");
          u "insights" := PDict (string_array "Key insights extracted from paper");
          u "techniques" := PDict (string_array "Novel techniques or methods described") ]}
       ["paper_metadata"; "insights"]).

Definition registered_tools : list Tool :=
  [search_arxiv_tool; search_semantic_scholar_tool; download_paper_tool;
   extract_insights_tool; analyze_citations_tool; store_paper_knowledge_tool].

Definition handle_list_tools : Py (list Tool) := ret registered_tools.

(** *** Reading an input schema *)




(** ** Concrete environments, for evaluating the handlers *)

(** No network, and a file system that accepts every write.  The tables
    beyond ASCII are trivial and the digest is a fixed text. *)
Definition offline_error : exn := Exn "ClientConnectorError" (u "Cannot connect to host").

Definition offline : Env :=
  {| uni_isalnum := λ _, false;
     uni_lower := λ s, s;
     fmt_ext := λ _, u "?";
     str_encode := λ s, Returned s;
     md5_hexdigest := λ _, u "d41d8cd98f00b204e9800998ecf8427e";
     PAPERS_DIR := u "/mnt/agentic-system/research-papers";
     arxiv_results := λ _ _ _, Raised offline_error;
     http_get := λ _ _, Raised offline_error;
     write_error := λ _ _, None |}.

Definition sample_result : ArxivResult :=
  {| entry_id := u "http://arxiv.org/abs/2401.00001v1";
     title := u "A paper";
     authors := [u "A. Author"];
     summary := u "An abstract.";
     pdf_url := lit "http://arxiv.org/pdf/2401.00001v1";
     published := Some (mkDatetime (u "2024-01-01T00:00:00+00:00"));
     updated := None;
     categories := [u "cs.AI"];
     primary_category := u "cs.AI" |}.

(** Every request is answered: arXiv returns one paper when at least one
    is asked for, and every URL answers 200 with a four-byte body. *)
Definition online : Env :=
  {| uni_isalnum := λ _, false;
     uni_lower := λ s, s;
     fmt_ext := λ _, u "?";
     str_encode := λ s, Returned s;
     md5_hexdigest := λ _, u "d41d8cd98f00b204e9800998ecf8427e";
     PAPERS_DIR := u "/mnt/agentic-system/research-papers";
     arxiv_results := λ _ max_results _,
       match max_results with
       | PInt z => if (1 <=? z)%Z then Returned [sample_result] else Returned []
       | _ => Raised (TypeError (u "max_results must be an int"))
       end;
     http_get := λ _ _,
       Returned {| status := 200;
                   resp_json := Returned (PDict {[ u "data" := PList [] ]});
                   resp_text := Returned (u "{}");
                   resp_read := Returned [37; 80; 68; 70]%N |};
     write_error := λ _ _, None |}.

(** ** Reading a response *)

(** The field [key] of the object a response serialises. *)
Definition field (tc : TextContent) (key : string) : option pyval :=
  match dumped (text tc) with
  | PDict d => d !! u key
  | _ => None
  end.

(** A Failure envelope is [failure_response] of some message; a Success
    envelope is recognised by its [success] field. *)
Definition is_failure (response : list TextContent) : Prop :=
  ∃ message, response = failure_response message.

(** The names of the registered tools. *)
Definition tool_names : list pystr := name <$> registered_tools.

(** ** Definitions the properties are stated with *)

(** The defaults each handler reads its arguments with, as written in the
    [args.get] calls. *)
Definition code_defaults : list (pystr * string * pyval) :=
  [(u "search_arxiv", "query", lit "");
   (u "search_arxiv", "max_results", PInt 10);
   (u "search_arxiv", "sort_by", lit "relevance");
   (u "search_semantic_scholar", "query", lit "");
   (u "search_semantic_scholar", "fields",
     PList [lit "title"; lit "authors"; lit "abstract"; lit "citationCount"; lit "year"]);
   (u "search_semantic_scholar", "limit", PInt 10);
   (u "download_paper", "url", lit "");
   (u "download_paper", "paper_id", lit "");
   (u "extract_insights", "paper_text", lit "");
   (u "extract_insights", "focus_areas", PList []);
   (u "analyze_citations", "paper_id", lit "");
   (u "analyze_citations", "depth", PInt 1);
   (u "store_paper_knowledge", "paper_metadata", PDict ∅);
   (u "store_paper_knowledge", "insights", PList []);
   (u "store_paper_knowledge", "techniques", PList [])].

(** What makes the loop keep a sentence. *)
Definition qualifies (E : Env) (sentence : pystr) : bool :=
  has_key_phrase E sentence && (50 <? length sentence)%nat && (length sentence <? 300)%nat.

(** The characters [re.sub] leaves in place. *)
Definition keeps (E : Env) (c : N) : bool := is_word E c || (c =? ch "-")%N.

(** The sentence of the scenario. *)
Definition the_sentence : pystr :=
  u "We propose a novel method that achieves state-of-the-art results.".

(** The same without its final period. *)
Definition the_sentence_body : pystr :=
  u "We propose a novel method that achieves state-of-the-art results".

(** The sentence, then more text. *)
Definition scenario_args : gmap pystr pyval :=
  {[ u "paper_text" := PStr (the_sentence ++ u " It works.") ]}.

(** Two environments with the same interpreter builtins; the collaborators
    and the configuration may differ. *)
Definition same_builtins (E E' : Env) : Prop :=
  fmt_ext E' = fmt_ext E ∧ str_encode E' = str_encode E ∧ md5_hexdigest E' = md5_hexdigest E.



(** What [extract_insights] answers to [scenario_args]. *)
Definition scenario_response : TextContent :=
  text_content (PDict {[ u "success" := PBool true;
                         u "insights" := PList [PStr the_sentence_body];
                         u "focus_areas" := PList [] ]}) (Some 2%nat).

(** The download scenario: a [paper_id] with a path separator. *)
Definition abc_123 : gmap pystr pyval :=
  {[ u "url" := lit "https://x/y.pdf"; u "paper_id" := lit "abc/123" ]}.

(** The search scenario: a query and nothing else. *)
Definition self_improvement : gmap pystr pyval := {[ u "query" := lit "self-improvement" ]}.

(** A paper with two insights and one technique, and the answer to it. *)
Definition stored_paper : gmap pystr pyval :=
  {[ u "paper_metadata" := PDict {[ u "title" := lit "A paper"; u "id" := lit "2401.00001" ]};
     u "insights" := PList [lit "first"; lit "second"];
     u "techniques" := PList [lit "only"] ]}.

Definition stored_response : TextContent :=
  text_content (PDict {[ u "success" := PBool true;
                         u "entity_name" := lit "research_paper_2401.00001";
                         u "observations_count" := PInt 7;
                         u "message" := lit "Paper knowledge ready for storage in enhanced-memory" ]})
    None.

(** ** cli_search.py *)

Module cli_search.

(** What [parser.parse_args()] returns: [--query] is required and
    [--max-results] is an [int] (5 when the option is not given). *)
Record Namespace := mkNamespace { query : pystr; max_results : Z }.

Section Cli.
(** [arxiv.Search(query, max_results, sort_by)] iterated with [for]: the
    results it yields, or the exception it raises on the way. *)
Context (search_results : pyval → pyval → SortCriterion → outcome (list ArxivResult)).

(** The dict built for one result. *)
Definition paper (result : ArxivResult) : pyval :=
  PDict (<[ u "id" := PStr (entry_id result) ]>
         (<[ u "title" := PStr (title result) ]>
         (<[ u "abstract" := PStr (summary result) ]>
         (<[ u "authors" := PList (PStr <$> authors result) ]>
         (<[ u "published" := iso_or_none (published result) ]>
         (<[ u "pdf_url" := pdf_url result ]>
         (<[ u "categories" := PList (PStr <$> categories result) ]>
         (<[ u "citations" := PInt 0 ]>
         (<[ u "concepts" := PList [] ]>
         (<[ u "techniques" := PList [] ]>
         {[ u "insights" := PList [PStr (take 200 (summary result))] ]})))))))))).

(** [search_arxiv(query, max_results=5)]: the list it returns and the
    lines it prints on [sys.stderr]. *)
Definition search_arxiv (query : pyval) (max_results : option pyval)
  : list pyval * list json_text :=
  match search_results query (default (PInt 5) max_results) Relevance with
  | Returned found => (paper <$> found, [])
  | Raised e => ([], [json_dumps (PDict {[ u "error" := PStr (exc_message e) ]}) None])
  end.

(** [main()] after [parse_args]: what goes to [sys.stdout] and to
    [sys.stderr]. *)
Definition main (args : Namespace) : list json_text * list json_text :=
  let '(results, errors) :=
    search_arxiv (PStr (query args)) (Some (PInt (max_results args))) in
  ([json_dumps (PList results) (Some 2%nat)], errors).

End Cli.
End cli_search.

(** ** Definitions the further properties are stated with *)

(** The values [len] accepts. *)
Definition has_len (v : pyval) : bool :=
  match v with
  | PStr _ | PList _ | PDict _ => true
  | _ => false
  end.

(** The values with a [get] method. *)
Definition is_dict (v : pyval) : bool :=
  match v with
  | PDict _ => true
  | _ => false
  end.

(** The values [re] and [str.join] accept. *)
Definition is_str (v : pyval) : bool :=
  match v with
  | PStr _ => true
  | _ => false
  end.

(** The values a dict lookup can hash. *)
Definition hashable (v : pyval) : bool :=
  match v with
  | PList _ | PDict _ => false
  | _ => true
  end.

(** A computation that leaves the store as it found it. *)
Definition keeps_store {A} (m : Py A) : Prop := ∀ fs, (m fs).2 = fs.

(** The keys a handler reads. *)
Definition keys_read (tool : pystr) : list pystr :=
  (λ e, u e.1.2) <$> filter (λ e, e.1.1 = tool) code_defaults.

(** Every URL answers 404. *)
Definition not_found : Response :=
  {| status := 404;
     resp_json := Returned (PDict {[ u "error" := lit "Paper not found" ]});
     resp_text := Returned (u "Not found");
     resp_read := Returned [] |}.

(** The environment of [online] in which every URL answers [not_found]. *)
Definition unavailable : Env :=
  {| uni_isalnum := uni_isalnum online;
     uni_lower := uni_lower online;
     fmt_ext := fmt_ext online;
     str_encode := str_encode online;
     md5_hexdigest := md5_hexdigest online;
     PAPERS_DIR := PAPERS_DIR online;
     arxiv_results := arxiv_results online;
     http_get := λ _ _, Returned not_found;
     write_error := write_error online |}.

(** One content item of type "text" that says [success: true] and carries
    no [error]. *)
Definition success_shaped (r : list TextContent) : Prop :=
  ∃ tc, r = [tc] ∧ type_ tc = u "text"
        ∧ field tc "success" = Some (PBool true) ∧ field tc "error" = None.

(** The [fields] asked for when the caller names none. *)
Definition default_fields : pyval :=
  PList (PStr <$> [u "title"; u "authors"; u "abstract"; u "citationCount"; u "year"]).

(** The request [search_semantic_scholar] sends. *)
Definition search_url : pyval := PStr (SEMANTIC_SCHOLAR_BASE_URL ++ u "/paper/search").

(** Its query parameters, [joined] being the comma-joined fields. *)
Definition search_params (args : gmap pystr pyval) (joined : pystr) : gmap pystr pyval :=
  {[ u "query" := args_get args "query" (PStr (u ""));
     u "fields" := PStr joined;
     u "limit" := args_get args "limit" (PInt 10) ]}.

(** The request [analyze_citations] sends. *)
Definition citations_url (E : Env) (args : gmap pystr pyval) : pyval :=
  PStr (SEMANTIC_SCHOLAR_BASE_URL ++ u "/paper/"
        ++ py_format E (args_get args "paper_id" (PStr (u "")))).

(** Its query parameters. *)
Definition citations_params : gmap pystr pyval :=
  {[ u "fields" :=
       PStr (u "title,citationCount,influentialCitationCount,citations,references") ]}.

(** An element of a dict value. *)
Definition item (v : pyval) (key : string) : option pyval :=
  match v with
  | PDict d => d !! u key
  | _ => None
  end.

(** Where [download_paper] saves the paper [paper_id]. *)
Definition pdf_path_of (E : Env) (paper_id : pystr) : pystr :=
  PAPERS_DIR E ++ u "/" ++ sanitize E paper_id ++ u ".pdf".


(** The network of [online], with no arXiv and a disk that refuses writes. *)
Definition read_only : Env :=
  {| uni_isalnum := uni_isalnum online;
     uni_lower := uni_lower online;
     fmt_ext := fmt_ext online;
     str_encode := str_encode online;
     md5_hexdigest := md5_hexdigest online;
     PAPERS_DIR := PAPERS_DIR online;
     arxiv_results := arxiv_results offline;
     http_get := http_get online;
     write_error := λ _ _, Some (Exn "PermissionError" (u "Permission denied")) |}.

(** ** Inputs the further properties are tried on *)

(** A number where the text should be. *)
Definition five_as_text : gmap pystr pyval := {[ u "paper_text" := PInt 5 ]}.

(** A list where the text should be. *)
Definition chapters_as_text : gmap pystr pyval := {[ u "paper_text" := PList [lit "one"] ]}.

(** A sort order that is not in the enumeration. *)
Definition newest_first : gmap pystr pyval :=
  {[ u "query" := lit "agents"; u "sort_by" := lit "newest" ]}.

(** A sort order that cannot be hashed. *)
Definition sorted_by_list : gmap pystr pyval :=
  {[ u "query" := lit "agents"; u "sort_by" := PList [lit "relevance"] ]}.

(** A paper the citation source does not know. *)
Definition unknown_paper : gmap pystr pyval := {[ u "paper_id" := lit "no-such-paper" ]}.

(** A download whose identifier is a number. *)
Definition numbered_paper : gmap pystr pyval :=
  {[ u "url" := lit "https://x/y.pdf"; u "paper_id" := PInt 123 ]}.

(** A download whose identifier is already what [abc/123] sanitizes to. *)
Definition abc_underscore_123 : gmap pystr pyval :=
  {[ u "url" := lit "https://x/y.pdf"; u "paper_id" := lit "abc_123" ]}.

(** Metadata with an identifier and a title that is a number. *)
Definition untitled_paper : gmap pystr pyval :=
  {[ u "paper_metadata" := PDict {[ u "title" := PInt 5; u "id" := lit "2401.00001" ]};
     u "insights" := PList [] ]}.

(** Insights given as one string, and the answer to it. *)
Definition insights_as_text : gmap pystr pyval :=
  {[ u "paper_metadata" := PDict {[ u "title" := lit "A paper"; u "id" := lit "2401.00001" ]};
     u "insights" := lit "abc" ]}.

Definition insights_as_text_response : TextContent :=
  text_content (PDict {[ u "success" := PBool true;
                         u "entity_name" := lit "research_paper_2401.00001";
                         u "observations_count" := PInt 7;
                         u "message" := lit "Paper knowledge ready for storage in enhanced-memory" ]})
    None.

(** Authors with a number among them. *)
Definition numbered_authors : gmap pystr pyval :=
  {[ u "paper_metadata" := PDict {[ u "authors" := PList [lit "A. Author"; PInt 2] ]};
     u "insights" := PList [] ]}.

(** Sixty spaces, then a key phrase. *)
Definition padded_text : pystr := replicate 60 (ch " ") ++ u "novel".

Definition padded_args : gmap pystr pyval := {[ u "paper_text" := PStr padded_text ]}.

(** * Properties *)

(** ** Generic facts about the monad *)

(** What the guarded body raises is reported in a Failure envelope. *)
Lemma guarded_raise_reported (body : Py (list TextContent)) fs e fs' :
  body fs = (Raised e, fs') →
  try_except body failure fs = (Returned (failure_response (exc_message e)), fs').
Proof. intros H. unfold try_except. by rewrite H. Qed.

(** A guarded body whose normal exits all return one content item gives a
    handler that returns one content item whatever happens. *)
Lemma guarded_returns_one (body : Py (list TextContent)) fs :
  (∀ r fs', body fs = (Returned r, fs') → ∃ tc, r = [tc]) →
  ∃ tc fs', try_except body failure fs = (Returned [tc], fs').
Proof.
  intros Hone. unfold try_except.
  destruct (body fs) as [[r|e] fs'] eqn:Hb.
  - destruct (Hone r fs' eq_refl) as [tc ->]. eauto.
  - unfold failure, ret, failure_response. eauto.
Qed.

Lemma bind_returned_inv {A B} (m : Py A) (k : A → Py B) fs b fs' :
  bind m k fs = (Returned b, fs') →
  ∃ a fs1, m fs = (Returned a, fs1) ∧ k a fs1 = (Returned b, fs').
Proof.
  unfold bind. destruct (m fs) as [[a|e] fs1]; [eauto | discriminate].
Qed.

Lemma lift_returned_inv {A} (o : outcome A) fs a fs' :
  lift o fs = (Returned a, fs') → o = Returned a ∧ fs' = fs.
Proof. unfold lift. intros [= -> ->]. done. Qed.

Lemma ret_inv {A} (a b : A) fs fs' :
  ret a fs = (Returned b, fs') → b = a ∧ fs' = fs.
Proof. unfold ret. intros [= -> ->]. done. Qed.

Ltac py_inv H :=
  repeat lazymatch type of H with
  | bind _ _ _ = (Returned _, _) =>
      let a := fresh "a" in let fs1 := fresh "fs" in
      let H1 := fresh "Hstep" in
      apply bind_returned_inv in H as (a & fs1 & H1 & H);
      try (apply lift_returned_inv in H1 as [H1 ->])
  | (if ?c then _ else _) _ = _ => destruct c eqn:?
  end.

Lemma or_empty_Some d : or_empty (Some d) = d.
Proof.
  unfold or_empty. case_bool_decide as Hs; [|done].
  symmetry. by apply map_size_empty_iff.
Qed.

Lemma tool_names_eq :
  tool_names =
  [u "search_arxiv"; u "search_semantic_scholar"; u "download_paper";
   u "extract_insights"; u "analyze_citations"; u "store_paper_knowledge"].
Proof. reflexivity. Qed.

Lemma in_tool_names t :
  t ∈ tool_names ↔
  t = u "search_arxiv" ∨ t = u "search_semantic_scholar" ∨ t = u "download_paper" ∨
  t = u "extract_insights" ∨ t = u "analyze_citations" ∨ t = u "store_paper_knowledge".
Proof. rewrite tool_names_eq, !elem_of_cons, elem_of_nil. tauto. Qed.

(** C4: [handle_list_tools] always returns, whatever the state, the six
    registered descriptors: search_arxiv, search_semantic_scholar,
    download_paper, extract_insights, analyze_citations and
    store_paper_knowledge, in this order and each exactly once; the state
    is left as it was, so every call gives the same sequence. *)
Theorem list_tools_six_in_order fs :
  handle_list_tools fs = (Returned registered_tools, fs)
  ∧ name <$> registered_tools =
      [u "search_arxiv"; u "search_semantic_scholar"; u "download_paper";
       u "extract_insights"; u "analyze_citations"; u "store_paper_knowledge"]
  ∧ NoDup (name <$> registered_tools).
Proof.
  split; [reflexivity|]. split; [reflexivity|].
  change (name <$> registered_tools) with tool_names. rewrite tool_names_eq.
  apply (bool_decide_unpack _). vm_compute. exact I.
Qed.

Lemma unknown_tool E t arguments fs :
  t ∉ tool_names →
  handle_call_tool E t arguments fs = (Raised (ValueError (u "Unknown tool: " ++ t)), fs).
Proof.
  rewrite in_tool_names. intros Hn. unfold handle_call_tool.
  repeat (case_decide; [tauto|]). reflexivity.
Qed.

(** ** Dispatch on a registered name *)

Lemma call_search_arxiv E a :
  handle_call_tool E (u "search_arxiv") a = search_arxiv E (or_empty a).
Proof. reflexivity. Qed.
Lemma call_search_semantic_scholar E a :
  handle_call_tool E (u "search_semantic_scholar") a = search_semantic_scholar E (or_empty a).
Proof. reflexivity. Qed.
Lemma call_download_paper E a :
  handle_call_tool E (u "download_paper") a = download_paper E (or_empty a).
Proof. reflexivity. Qed.
Lemma call_extract_insights E a :
  handle_call_tool E (u "extract_insights") a = extract_insights E (or_empty a).
Proof. reflexivity. Qed.
Lemma call_analyze_citations E a :
  handle_call_tool E (u "analyze_citations") a = analyze_citations E (or_empty a).
Proof. reflexivity. Qed.
Lemma call_store_paper_knowledge E a :
  handle_call_tool E (u "store_paper_knowledge") a = store_paper_knowledge E (or_empty a).
Proof. reflexivity. Qed.

(** ** An absent key and its default *)



Ltac keys_differ := let H := fresh in intros H; vm_compute in H; discriminate H.



(** ** The guarded handlers always answer *)

Ltac one_response :=
  apply guarded_returns_one;
  let r := fresh "r" in let fs' := fresh "fs'" in let H := fresh "H" in
  intros r fs' H; py_inv H;
  first [ apply ret_inv in H as [-> _]; eauto | discriminate H ].






Lemma store_paper_knowledge_answers E args fs v :
  py_get (args_get args "paper_metadata" (PDict ∅)) "title" (PStr (u "Unknown")) = Returned v →
  ∃ tc fs', store_paper_knowledge E args fs = (Returned [tc], fs').
Proof.
  intros Hget. unfold store_paper_knowledge. unfold bind at 1. unfold lift at 1.
  rewrite Hget. one_response.
Qed.

(** ** The insight loop *)

Lemma collect_insights_step E sentence rest insights :
  collect_insights E (sentence :: rest) insights =
  let insights' := if qualifies E sentence then insights ++ [strip sentence] else insights in
  if (10 <=? length insights')%nat then insights' else collect_insights E rest insights'.
Proof.
  unfold qualifies. cbn [collect_insights].
  destruct (has_key_phrase E sentence); [|reflexivity].
  destruct ((50 <? length sentence)%nat && (length sentence <? 300)%nat) eqn:Hlen;
    cbn [andb] in *; rewrite ?Hlen; reflexivity.
Qed.

(** The loop keeps the first ten qualifying sentences, stripped, in order. *)
Lemma collect_insights_spec E sentences insights :
  (length insights < 10)%nat →
  collect_insights E sentences insights =
  insights ++ (strip <$> take (10 - length insights) (filter (λ s, qualifies E s) sentences)).
Proof.
  revert insights. induction sentences as [|s rest IH]; intros insights Hlt.
  - cbn. by rewrite take_nil, app_nil_r.
  - rewrite collect_insights_step. cbv zeta.
    destruct (qualifies E s) eqn:Hq.
    + rewrite filter_cons_True by (by rewrite Hq).
      rewrite length_app. cbn [length].
      destruct (10 - length insights)%nat as [|n] eqn:Hn; [lia|].
      cbn [take fmap list_fmap].
      destruct (10 <=? length insights + 1)%nat eqn:Hten.
      * apply Nat.leb_le in Hten. assert (n = 0)%nat as -> by lia.
        by rewrite take_0.
      * apply Nat.leb_gt in Hten. rewrite IH by (rewrite length_app; cbn; lia).
        rewrite length_app. cbn [length].
        replace (10 - (length insights + 1))%nat with n by lia.
        by rewrite <- app_assoc.
    + rewrite filter_cons_False by (rewrite Hq; intros []).
      destruct (10 <=? length insights)%nat eqn:Hten; [apply Nat.leb_le in Hten; lia|].
      by apply IH.
Qed.

Lemma qualifies_spec E s :
  qualifies E s = true ↔
  (50 < length s < 300)%nat ∧
  ∃ phrase, phrase ∈ key_phrases ∧ contains phrase (str_lower E s) = true.
Proof.
  unfold qualifies, has_key_phrase.
  rewrite !andb_true_iff, Nat.ltb_lt, Nat.ltb_lt, existsb_exists.
  split.
  - intros [[(p & Hin & Hp) ?] ?]. split; [lia|]. exists p. by rewrite list_elem_of_In.
  - intros [? (p & Hin & Hp)]. split; [split|]; [|lia..]. exists p. by rewrite <- list_elem_of_In.
Qed.

Ltac read_field :=
  unfold field; cbn [dumped text text_content];
  repeat first [ rewrite lookup_insert_eq
               | rewrite lookup_insert_ne by keys_differ
               | rewrite lookup_singleton_eq
               | rewrite lookup_singleton_ne by keys_differ ].

(** C8, amended: in a successful response of [extract_insights] the
    insights are at most ten; they are, in the order of the text, the
    stripped forms of sentences that [re.split] cut out of [paper_text],
    each of these sentences being longer than 50 and shorter than 300
    characters before it is stripped, and containing, once lowered, one of
    the key phrases. *)
Theorem extract_insights_selects E args fs tc fs' :
  extract_insights E args fs = (Returned [tc], fs') →
  field tc "success" = Some (PBool true) →
  ∃ paper_text kept,
    args_get args "paper_text" (PStr (u "")) = PStr paper_text
    ∧ field tc "insights" = Some (PList (PStr <$> (strip <$> kept)))
    ∧ (length kept ≤ 10)%nat
    ∧ kept `sublist_of` re_split_sentences paper_text
    ∧ Forall (λ sentence,
        (50 < length sentence < 300)%nat ∧
        ∃ phrase, phrase ∈ key_phrases ∧ contains phrase (str_lower E sentence) = true) kept.
Proof.
  unfold extract_insights. intros Hrun Hok.
  apply bind_returned_inv in Hrun as (n & fs1 & Hlen & Hrun).
  apply lift_returned_inv in Hlen as [Hlen ->].
  unfold try_except in Hrun.
  destruct (args_get args "paper_text" (PStr (u ""))) as [| | | |paper_text| |] eqn:Hget;
    try discriminate Hlen.
  - (* a string *)
    unfold bind, lift, re_split, ret in Hrun. inversion Hrun; subst tc fs'. clear Hrun.
    exists paper_text, (take 10 (filter (λ s, qualifies E s) (re_split_sentences paper_text))).
    split; [done|]. split; [|split; [|split]].
    + read_field. by rewrite collect_insights_spec by (cbn; lia).
    + rewrite length_take. lia.
    + etrans; [apply sublist_take | apply sublist_filter].
    + apply Forall_take, Forall_forall. intros s [Hq _]%list_elem_of_filter.
      apply qualifies_spec. by destruct (qualifies E s).
  - (* a list: [re.split] raises *)
    unfold bind, lift, re_split, failure, ret in Hrun.
    inversion Hrun; subst tc fs'. revert Hok. read_field. discriminate.
  - unfold bind, lift, re_split, failure, ret in Hrun.
    inversion Hrun; subst tc fs'. revert Hok. read_field. discriminate.
Qed.

(** C8 as stated fails: the bounds are tested on the sentence and the
    sentence is stripped afterwards, so sixty spaces before [novel] give
    the insight [novel], of five characters. *)
Lemma stripped_insight_is_short :
  ¬ (∀ tc fs' items,
       extract_insights offline padded_args ∅ = (Returned [tc], fs') →
       field tc "insights" = Some (PList items) →
       Forall (λ v, ∃ insight, v = PStr insight ∧ (50 < length insight < 300)%nat) items).
Proof.
  intros Hclaim.
  specialize (Hclaim _ _ [lit "novel"] eq_refl).
  assert (Forall (λ v, ∃ insight, v = PStr insight ∧ (50 < length insight < 300)%nat)
            [lit "novel"]) as Hall.
  { apply Hclaim. vm_compute. reflexivity. }
  apply Forall_cons in Hall as [(insight & [= <-] & Hlen & _) _].
  vm_compute in Hlen. lia.
Qed.

(** ** The download path *)

Lemma slash_not_kept E : keeps E (ch "/") = false.
Proof. reflexivity. Qed.

Lemma sanitize_no_slash E s : ch "/" ∉ sanitize E s.
Proof.
  unfold sanitize. intros (c & Hc & _)%list_elem_of_fmap.
  fold (keeps E c) in Hc. destruct (keeps E c) eqn:Hk.
  - subst c. by rewrite slash_not_kept in Hk.
  - vm_compute in Hc. discriminate Hc.
Qed.

Lemma underscore_is_word E : is_word E (ch "_") = true.
Proof. reflexivity. Qed.

Lemma sanitize_safe E s :
  Forall (λ c, is_word E c = true ∨ c = ch "-") (sanitize E s).
Proof.
  unfold sanitize. apply Forall_fmap, Forall_forall. intros c _. unfold compose.
  destruct (is_word E c) eqn:Hw; cbn [orb].
  - by left.
  - destruct (c =? ch "-")%N eqn:Hh.
    + right. by apply N.eqb_eq.
    + left. apply underscore_is_word.
Qed.


Lemma file_name_relative E s : startswith (u "/") (sanitize E s ++ u ".pdf") = false.
Proof.
  pose proof (sanitize_no_slash E s) as Hno.
  destruct (sanitize E s) as [|c rest]; [reflexivity|].
  cbn. rewrite andb_true_r. apply N.eqb_neq. intros <-. apply Hno. left.
Qed.

Lemma pdf_path_eq E s :
  path_div (PAPERS_DIR E) (sanitize E s ++ u ".pdf")
  = PAPERS_DIR E ++ u "/" ++ sanitize E s ++ u ".pdf".
Proof. unfold path_div. by rewrite file_name_relative. Qed.


(** ** The sentence of the specification's scenario *)










(** ** store_paper_knowledge *)

(** The handler neither reads nor writes the store, and calls no
    collaborator. *)
Lemma store_paper_knowledge_pure E E' args fs fs' :
  same_builtins E E' →
  (store_paper_knowledge E' args fs').1 = (store_paper_knowledge E args fs).1
  ∧ (store_paper_knowledge E args fs).2 = fs.
Proof.
  intros (Hfmt & Henc & Hmd5).
  unfold store_paper_knowledge, try_except, bind, lift, ret, failure, py_encode, py_format.
  rewrite Hfmt, Henc, Hmd5.
  repeat match goal with
         | |- context [match ?o with Returned _ => _ | Raised _ => _ end] =>
             destruct o; cbn [fst snd]
         | |- context [match ?v with PStr _ => _ | _ => _ end] =>
             destruct v; cbn [fst snd]
         end;
    done.
Qed.

(** C9: when [insights] and [techniques] are lists, a successful
    response of [store_paper_knowledge] has
    [observations_count = 4 + len(insights) + len(techniques)] and an
    [entity_name] that starts with ["research_paper_"]; the store is left
    as it was, and the same arguments give the same response again, in any
    state and with any collaborators. *)
Theorem store_paper_knowledge_counts E args fs li lt tc fs' :
  args !! u "insights" = Some (PList li) →
  args !! u "techniques" = Some (PList lt) →
  store_paper_knowledge E args fs = (Returned [tc], fs') →
  field tc "success" = Some (PBool true) →
  field tc "observations_count"
    = Some (PInt (4 + Z.of_nat (length li) + Z.of_nat (length lt)))
  ∧ (∃ suffix, field tc "entity_name" = Some (PStr (u "research_paper_" ++ suffix)))
  ∧ fs' = fs
  ∧ ∀ E' fs2, same_builtins E E' →
      store_paper_knowledge E' args fs2 = (Returned [tc], fs2).
Proof.
  intros Hi Ht Hrun Hok.
  assert (Hpure : fs' = fs ∧ ∀ E' fs2, same_builtins E E' →
            store_paper_knowledge E' args fs2 = (Returned [tc], fs2)).
  { split.
    - pose proof (store_paper_knowledge_pure E E args fs fs (conj eq_refl (conj eq_refl eq_refl)))
        as [_ H2]. by rewrite Hrun in H2.
    - intros E' fs2 Hsame.
      pose proof (store_paper_knowledge_pure E E' args fs fs2 Hsame) as [H1 _].
      assert (same_builtins E' E') as Hrefl by done.
      pose proof (store_paper_knowledge_pure E' E' args fs2 fs2 Hrefl) as [_ H2].
      rewrite Hrun in H1. destruct (store_paper_knowledge E' args fs2) as [o f].
      cbn in *. by subst. }
  destruct Hpure as [-> Hdet]. split; [|split; [|done]].
  - unfold store_paper_knowledge in Hrun.
    unfold args_get in Hrun. rewrite Hi, Ht in Hrun. cbn [default] in Hrun.
    apply bind_returned_inv in Hrun as (v0 & fs0 & _ & Hrun).
    unfold try_except in Hrun.
    match type of Hrun with
    | match ?body ?f with _ => _ end = _ => destruct (body f) as [[r|e] fs1] eqn:Hbody
    end.
    + injection Hrun as -> ->. py_inv Hbody.
      apply ret_inv in Hbody as [[= ->] _].
      repeat match goal with
             | H : py_iter _ _ = Returned _ |- _ => cbn in H; injection H as <-
             end.
      read_field. do 2 f_equal.
      rewrite !length_app, !length_fmap. cbn [length]. lia.
    + unfold failure, ret in Hrun. inversion Hrun; subst. revert Hok. read_field. discriminate.
  - unfold store_paper_knowledge in Hrun.
    apply bind_returned_inv in Hrun as (v0 & fs0 & _ & Hrun).
    unfold try_except in Hrun.
    match type of Hrun with
    | match ?body ?f with _ => _ end = _ => destruct (body f) as [[r|e] fs1] eqn:Hbody
    end.
    + injection Hrun as -> ->. py_inv Hbody.
      apply ret_inv in Hbody as [[= ->] _].
      eexists. by read_field.
    + unfold failure, ret in Hrun. inversion Hrun; subst. revert Hok. read_field. discriminate.
Qed.

(** ** Schema and code *)












(** C3, amended: for a name that is not one of the six registered names
    [handle_call_tool] raises [ValueError("Unknown tool: <name>")]; it
    calls no handler and leaves the state as it was, so later calls behave
    as if this one had not been made. *)
Theorem unknown_tool_raises E t arguments fs :
  t ∉ tool_names →
  handle_call_tool E t arguments fs = (Raised (ValueError (u "Unknown tool: " ++ t)), fs)
  ∧ ∀ t' arguments',
      handle_call_tool E t' arguments' (handle_call_tool E t arguments fs).2
      = handle_call_tool E t' arguments' fs.
Proof.
  intros Hn. rewrite (unknown_tool E t arguments fs Hn). done.
Qed.

(** C3 as stated fails: for the name ["nope"] [handle_call_tool] returns
    no response at all, hence no Failure envelope. *)
Lemma unknown_tool_no_envelope :
  ¬ (∃ response fs',
       handle_call_tool offline (u "nope") None ∅ = (Returned response, fs')
       ∧ is_failure response).
Proof. intros (response & fs' & H & _). vm_compute in H. discriminate H. Qed.


(** C1, at the inputs where it fails: [extract_insights] with
    [paper_text = 5] raises the [TypeError] of [len] out of the handler,
    also through [handle_call_tool]; [store_paper_knowledge] with a
    [paper_metadata] that is a string raises the [AttributeError] of
    [.get].  Both come from the logging line that precedes the [try]. *)
Theorem exception_before_try_escapes E fs :
  extract_insights E {[ u "paper_text" := PInt 5 ]} fs
  = (Raised (TypeError (u "object of type 'int' has no len()")), fs)
  ∧ handle_call_tool E (u "extract_insights") (Some {[ u "paper_text" := PInt 5 ]}) fs
  = (Raised (TypeError (u "object of type 'int' has no len()")), fs)
  ∧ store_paper_knowledge E {[ u "paper_metadata" := lit "x"; u "insights" := PList [] ]} fs
  = (Raised (AttributeError (u "'str' object has no attribute 'get'")), fs).
Proof.
  split; [|split].
  - reflexivity.
  - rewrite call_extract_insights, or_empty_Some. reflexivity.
  - reflexivity.
Qed.


Lemma unknown_tool_raises_witness :
  (u "nope" ∉ tool_names)
  ∧ handle_call_tool offline (u "nope") None ∅
    = (Raised (ValueError (u "Unknown tool: " ++ u "nope")), ∅).
Proof.
  assert (H : u "nope" ∉ tool_names).
  { apply (bool_decide_unpack _). vm_compute. exact I. }
  split; [exact H|].
  exact (proj1 (unknown_tool_raises offline (u "nope") None ∅ H)).
Defined.





Lemma extract_insights_selects_witness :
  extract_insights offline scenario_args ∅ = (Returned [scenario_response], ∅)
  ∧ field scenario_response "success" = Some (PBool true)
  ∧ ∃ paper_text kept,
      args_get scenario_args "paper_text" (PStr (u "")) = PStr paper_text
      ∧ field scenario_response "insights" = Some (PList (PStr <$> (strip <$> kept)))
      ∧ (length kept ≤ 10)%nat
      ∧ kept `sublist_of` re_split_sentences paper_text
      ∧ Forall (λ sentence,
          (50 < length sentence < 300)%nat ∧
          ∃ phrase, phrase ∈ key_phrases
            ∧ contains phrase (str_lower offline sentence) = true) kept.
Proof.
  assert (H1 : extract_insights offline scenario_args ∅ = (Returned [scenario_response], ∅)).
  { vm_compute. reflexivity. }
  assert (H2 : field scenario_response "success" = Some (PBool true)) by reflexivity.
  split; [exact H1|]. split; [exact H2|].
  exact (extract_insights_selects offline scenario_args ∅ scenario_response ∅ H1 H2).
Defined.

Lemma store_paper_knowledge_counts_witness :
  stored_paper !! u "insights" = Some (PList [lit "first"; lit "second"])
  ∧ stored_paper !! u "techniques" = Some (PList [lit "only"])
  ∧ store_paper_knowledge offline stored_paper ∅ = (Returned [stored_response], ∅)
  ∧ field stored_response "success" = Some (PBool true)
  ∧ field stored_response "observations_count" = Some (PInt 7).
Proof.
  assert (H1 : stored_paper !! u "insights" = Some (PList [lit "first"; lit "second"]))
    by reflexivity.
  assert (H2 : stored_paper !! u "techniques" = Some (PList [lit "only"])) by reflexivity.
  assert (H3 : store_paper_knowledge offline stored_paper ∅ = (Returned [stored_response], ∅)).
  { vm_compute. reflexivity. }
  assert (H4 : field stored_response "success" = Some (PBool true)) by reflexivity.
  split; [exact H1|]. split; [exact H2|]. split; [exact H3|]. split; [exact H4|].
  exact (proj1 (store_paper_knowledge_counts offline stored_paper ∅ _ _ stored_response ∅
                  H1 H2 H3 H4)).
Defined.


(** * Further properties *)

(** ** Computations that leave the store alone *)

Lemma keeps_store_ret {A} (a : A) : keeps_store (ret a).
Proof. by intros fs. Qed.

Lemma keeps_store_raise {A} e : keeps_store (@raise A e).
Proof. by intros fs. Qed.

Lemma keeps_store_lift {A} (o : outcome A) : keeps_store (lift o).
Proof. by intros fs. Qed.

Lemma keeps_store_bind {A B} (m : Py A) (k : A → Py B) :
  keeps_store m → (∀ a, keeps_store (k a)) → keeps_store (bind m k).
Proof.
  intros Hm Hk fs. unfold bind. specialize (Hm fs).
  destruct (m fs) as [[a|e] fs1]; cbn in Hm; subst fs1; [apply Hk | done].
Qed.

Lemma keeps_store_try {A} (body : Py A) (h : exn → Py A) :
  keeps_store body → (∀ e, keeps_store (h e)) → keeps_store (try_except body h).
Proof.
  intros Hb Hh fs. unfold try_except. specialize (Hb fs).
  destruct (body fs) as [[a|e] fs1]; cbn in Hb; subst fs1; [done | apply Hh].
Qed.

Lemma keeps_store_failure e : keeps_store (failure e).
Proof. by intros fs. Qed.

Ltac keeps_store :=
  repeat first
    [ apply keeps_store_try | apply keeps_store_failure
    | apply keeps_store_bind | apply keeps_store_lift
    | apply keeps_store_ret | apply keeps_store_raise
    | progress cbv zeta
    | match goal with
      | |- ∀ _, _ => intro
      | |- keeps_store (if ?c then _ else _) => destruct c
      end ].

Lemma search_arxiv_keeps_store E args : keeps_store (search_arxiv E args).
Proof. unfold search_arxiv. keeps_store. Qed.

Lemma search_semantic_scholar_keeps_store E args :
  keeps_store (search_semantic_scholar E args).
Proof. unfold search_semantic_scholar. keeps_store. Qed.

Lemma extract_insights_keeps_store E args : keeps_store (extract_insights E args).
Proof. unfold extract_insights. keeps_store. Qed.

Lemma analyze_citations_keeps_store E args : keeps_store (analyze_citations E args).
Proof. unfold analyze_citations. keeps_store. Qed.

Lemma store_paper_knowledge_keeps_store E args :
  keeps_store (store_paper_knowledge E args).
Proof. unfold store_paper_knowledge. keeps_store. Qed.

(** ** The dispatcher as a whole *)

Lemma try_except_failure_returns (body : Py (list TextContent)) fs e fs' :
  try_except body failure fs ≠ (Raised e, fs').
Proof. unfold try_except. by destruct (body fs) as [[r|e'] fs1]. Qed.

Lemma py_len_raised v e :
  py_len v = Raised e ↔
  has_len v = false ∧ e = TypeError (u ("object of type '" ++ type_name v ++ "' has no len()")).
Proof. destruct v; cbn; split; (intros [= <-] || intros [[=] ->] || intros [_ ->]); done. Qed.

Lemma py_get_raised v key dflt e :
  py_get v key dflt = Raised e ↔ is_dict v = false ∧ e = no_attribute v "get".
Proof. destruct v; cbn; split; (intros [= <-] || intros [[=] ->] || intros [_ ->]); done. Qed.

Lemma extract_insights_raised E args fs e fs' :
  extract_insights E args fs = (Raised e, fs') ↔
  fs' = fs ∧ py_len (args_get args "paper_text" (PStr (u ""))) = Raised e.
Proof.
  unfold extract_insights, bind at 1, lift at 1.
  destruct (py_len _) as [n|e0].
  - split; [|intros [_ [=]]]. intros H. by apply try_except_failure_returns in H.
  - split; [intros [= -> ->] | intros [-> [= ->]]]; done.
Qed.

Lemma store_paper_knowledge_raised E args fs e fs' :
  store_paper_knowledge E args fs = (Raised e, fs') ↔
  fs' = fs ∧ py_get (args_get args "paper_metadata" (PDict ∅)) "title" (PStr (u "Unknown"))
             = Raised e.
Proof.
  unfold store_paper_knowledge, bind at 1, lift at 1.
  destruct (py_get _ "title" (PStr (u "Unknown"))) as [n|e0].
  - split; [|intros [_ [=]]]. intros H. by apply try_except_failure_returns in H.
  - split; [intros [= -> ->] | intros [-> [= ->]]]; done.
Qed.

(** X1: [handle_call_tool] raises in exactly three cases, the state being left as
    it was: the name is not registered; the tool is extract_insights and
    [paper_text] has no [len]; the tool is store_paper_knowledge and
    [paper_metadata] is not a dict.  In every other case it returns. *)
Theorem call_tool_raises_iff E t arguments fs e fs' :
  handle_call_tool E t arguments fs = (Raised e, fs') ↔
  fs' = fs ∧
  (((t ∉ tool_names) ∧ e = ValueError (u "Unknown tool: " ++ t))
   ∨ (t = u "extract_insights" ∧
      ∃ v, args_get (or_empty arguments) "paper_text" (PStr (u "")) = v
        ∧ has_len v = false
        ∧ e = TypeError (u ("object of type '" ++ type_name v ++ "' has no len()")))
   ∨ (t = u "store_paper_knowledge" ∧
      ∃ v, args_get (or_empty arguments) "paper_metadata" (PDict ∅) = v
        ∧ is_dict v = false
        ∧ e = no_attribute v "get")).
Proof.
  destruct (decide (t ∈ tool_names)) as [Hin|Hout].
  - apply in_tool_names in Hin.
    destruct Hin as [->|[->|[->|[->|[->| ->]]]]].
    + rewrite call_search_arxiv. split.
      * intros H. unfold search_arxiv in H. by apply try_except_failure_returns in H.
      * intros [_ [[Hn _]|[[[=] _]|[[=] _]]]]. exfalso. apply Hn, in_tool_names. tauto.
    + rewrite call_search_semantic_scholar. split.
      * intros H. unfold search_semantic_scholar in H.
        by apply try_except_failure_returns in H.
      * intros [_ [[Hn _]|[[[=] _]|[[=] _]]]]. exfalso. apply Hn, in_tool_names. tauto.
    + rewrite call_download_paper. split.
      * intros H. unfold download_paper in H. by apply try_except_failure_returns in H.
      * intros [_ [[Hn _]|[[[=] _]|[[=] _]]]]. exfalso. apply Hn, in_tool_names. tauto.
    + rewrite call_extract_insights, extract_insights_raised, py_len_raised. split.
      * intros (-> & Hl & ->). split; [done|]. right. left. eauto.
      * intros [-> [[Hn _]|[(_ & v & <- & Hl & ->)|[[=] _]]]]; [|done].
        exfalso. apply Hn, in_tool_names. tauto.
    + rewrite call_analyze_citations. split.
      * intros H. unfold analyze_citations in H. by apply try_except_failure_returns in H.
      * intros [_ [[Hn _]|[[[=] _]|[[=] _]]]]. exfalso. apply Hn, in_tool_names. tauto.
    + rewrite call_store_paper_knowledge, store_paper_knowledge_raised, py_get_raised. split.
      * intros (-> & Hl & ->). split; [done|]. right. right. eauto.
      * intros [-> [[Hn _]|[[[=] _]|(_ & v & <- & Hl & ->)]]]; [|done].
        exfalso. apply Hn, in_tool_names. tauto.
  - rewrite (unknown_tool E t arguments fs Hout). split.
    + intros [= <- <-]. split; [done|]. by left.
    + intros [-> [[_ ->]|[[-> _]|[-> _]]]]; [done| |];
        exfalso; apply Hout, in_tool_names; tauto.
Qed.

(** ** Only [download_paper] writes, and only its one file *)

Lemma download_paper_store E args fs o fs' :
  download_paper E args fs = (o, fs') →
  fs' = fs
  ∨ ∃ paper_id content,
      args_get args "paper_id" (PStr (u "")) = PStr paper_id
      ∧ fs' = <[PAPERS_DIR E ++ u "/" ++ sanitize E paper_id ++ u ".pdf" := content]> fs.
Proof.
  unfold download_paper, try_except. intros Hrun.
  destruct (args_get args "paper_id" (PStr (u ""))) as [| | | |paper_id| |] eqn:Hid;
    try (left; unfold bind, lift, re_sub_unsafe, failure, ret in Hrun; by injection Hrun as _ <-).
  unfold bind at 1 in Hrun. unfold lift at 1 in Hrun. cbn [re_sub_unsafe] in Hrun.
  rewrite pdf_path_eq in Hrun.
  unfold bind at 1 in Hrun. unfold lift at 1 in Hrun.
  destruct (http_get E _ None) as [response|e]; [|left; by injection Hrun as _ <-].
  destruct (status response =? 200)%Z; [|left; by injection Hrun as _ <-].
  unfold bind at 1 in Hrun. unfold lift at 1 in Hrun.
  destruct (resp_read response) as [content|e]; [|left; by injection Hrun as _ <-].
  unfold bind, write_bytes in Hrun.
  destruct (write_error E _ content) as [e|]; [left; by injection Hrun as _ <-|].
  right. unfold ret in Hrun. injection Hrun as _ <-. eauto.
Qed.

(** X2: only download_paper writes.  For any other name [handle_call_tool]
    leaves the store as it was; for download_paper the only path whose
    content can differ afterwards is [PAPERS_DIR/<safe_id>.pdf] of the
    call's [paper_id]. *)
Theorem call_tool_store_frame E t arguments fs o fs' :
  handle_call_tool E t arguments fs = (o, fs') →
  (t ≠ u "download_paper" → fs' = fs)
  ∧ ∀ path, fs' !! path ≠ fs !! path →
      t = u "download_paper"
      ∧ ∃ paper_id,
          args_get (or_empty arguments) "paper_id" (PStr (u "")) = PStr paper_id
          ∧ path = PAPERS_DIR E ++ u "/" ++ sanitize E paper_id ++ u ".pdf".
Proof.
  intros Hrun.
  assert (Hcases : (t ≠ u "download_paper" ∧ fs' = fs)
                   ∨ (t = u "download_paper" ∧ download_paper E (or_empty arguments) fs = (o, fs'))).
  { unfold handle_call_tool in Hrun.
    repeat case_decide; subst; try (right; split; [reflexivity|exact Hrun]); left;
      (split; [done|]);
      first
        [ pose proof (search_arxiv_keeps_store E (or_empty arguments) fs) as Hk;
          by rewrite Hrun in Hk
        | pose proof (search_semantic_scholar_keeps_store E (or_empty arguments) fs) as Hk;
          by rewrite Hrun in Hk
        | pose proof (extract_insights_keeps_store E (or_empty arguments) fs) as Hk;
          by rewrite Hrun in Hk
        | pose proof (analyze_citations_keeps_store E (or_empty arguments) fs) as Hk;
          by rewrite Hrun in Hk
        | pose proof (store_paper_knowledge_keeps_store E (or_empty arguments) fs) as Hk;
          by rewrite Hrun in Hk
        | by injection Hrun as _ <- ]. }
  destruct Hcases as [[Hne ->]|[-> Hdl]].
  - split; [done|]. intros path Hp. done.
  - split; [done|]. intros path Hp. split; [done|].
    apply download_paper_store in Hdl as [->|(paper_id & content & Hid & ->)]; [done|].
    exists paper_id. split; [done|].
    destruct (decide (path = PAPERS_DIR E ++ u "/" ++ sanitize E paper_id ++ u ".pdf"))
      as [->|Hne]; [done|].
    by rewrite lookup_insert_ne in Hp.
Qed.

(** ** The two shapes of a response *)

Ltac no_field :=
  unfold field; cbn [dumped text text_content];
  repeat first [ rewrite lookup_insert_ne by keys_differ
               | rewrite lookup_singleton_ne by keys_differ ];
  reflexivity.

Lemma guarded_shape (P : list TextContent → Prop) (body : Py (list TextContent)) fs r fs' :
  (∀ r1 fs1, body fs = (Returned r1, fs1) → P r1) →
  try_except body failure fs = (Returned r, fs') →
  P r ∨ ∃ message, r = failure_response message.
Proof.
  intros Hbody. unfold try_except.
  destruct (body fs) as [[r1|e] fs1] eqn:Hb.
  - intros [= <- <-]. left. by eapply Hbody.
  - intros [= <- <-]. right. eauto.
Qed.

Ltac success_body :=
  let r1 := fresh "r" in let fs1 := fresh "fs" in let H := fresh "H" in
  intros r1 fs1 H; py_inv H;
  first [ discriminate H
        | apply ret_inv in H as [-> _];
          eexists; split; [reflexivity|]; split; [reflexivity|];
          split; [by read_field | no_field] ].

Lemma search_arxiv_shape E args fs r fs' :
  search_arxiv E args fs = (Returned r, fs') →
  success_shaped r ∨ ∃ message, r = failure_response message.
Proof. unfold search_arxiv. apply guarded_shape. success_body. Qed.

Lemma search_semantic_scholar_shape E args fs r fs' :
  search_semantic_scholar E args fs = (Returned r, fs') →
  success_shaped r ∨ ∃ message, r = failure_response message.
Proof. unfold search_semantic_scholar. apply guarded_shape. success_body. Qed.

Lemma download_paper_shape E args fs r fs' :
  download_paper E args fs = (Returned r, fs') →
  success_shaped r ∨ ∃ message, r = failure_response message.
Proof. unfold download_paper. apply guarded_shape. success_body. Qed.

Lemma analyze_citations_shape E args fs r fs' :
  analyze_citations E args fs = (Returned r, fs') →
  success_shaped r ∨ ∃ message, r = failure_response message.
Proof. unfold analyze_citations. apply guarded_shape. success_body. Qed.

Lemma extract_insights_shape E args fs r fs' :
  extract_insights E args fs = (Returned r, fs') →
  success_shaped r ∨ ∃ message, r = failure_response message.
Proof.
  unfold extract_insights. intros H.
  apply bind_returned_inv in H as (n & fs1 & _ & H). revert H.
  apply guarded_shape. success_body.
Qed.

Lemma store_paper_knowledge_shape E args fs r fs' :
  store_paper_knowledge E args fs = (Returned r, fs') →
  success_shaped r ∨ ∃ message, r = failure_response message.
Proof.
  unfold store_paper_knowledge. intros H.
  apply bind_returned_inv in H as (n & fs1 & _ & H). revert H.
  apply guarded_shape. success_body.
Qed.

(** X3: whenever [handle_call_tool] returns, the response is one content
    item of type "text" whose object either is a Failure envelope or says
    [success: true] and has no [error] key. *)
Theorem call_tool_response_shape E t arguments fs r fs' :
  handle_call_tool E t arguments fs = (Returned r, fs') →
  ∃ tc, r = [tc] ∧ type_ tc = u "text"
    ∧ ((field tc "success" = Some (PBool true) ∧ field tc "error" = None)
       ∨ ∃ message, r = failure_response message).
Proof.
  intros Hrun.
  assert (Hs : success_shaped r ∨ ∃ message, r = failure_response message).
  { unfold handle_call_tool in Hrun. repeat case_decide.
    - by eapply search_arxiv_shape.
    - by eapply search_semantic_scholar_shape.
    - by eapply download_paper_shape.
    - by eapply extract_insights_shape.
    - by eapply analyze_citations_shape.
    - by eapply store_paper_knowledge_shape.
    - discriminate Hrun. }
  destruct Hs as [(tc & -> & Hty & Hok & Herr)|[message ->]].
  - exists tc. eauto.
  - eexists. split; [reflexivity|]. split; [reflexivity|]. right. eauto.
Qed.

(** ** Keys no handler reads *)

Lemma args_get_insert_unread (args : gmap pystr pyval) key v k d :
  key ≠ u k → args_get (<[key := v]> args) k d = args_get args k d.
Proof. intros H. unfold args_get. by rewrite lookup_insert_ne. Qed.

(** X4: an argument no handler of the tool reads is ignored: the call with
    the extra key, at any value, is the call without it. *)
Theorem unread_keys_ignored E t args key v fs :
  key ∉ keys_read t →
  handle_call_tool E t (Some (<[key := v]> args)) fs = handle_call_tool E t (Some args) fs.
Proof.
  intros Hkey. destruct (decide (t ∈ tool_names)) as [Hin|Hout].
  - apply in_tool_names in Hin.
    destruct Hin as [->|[->|[->|[->|[->| ->]]]]];
      vm_compute keys_read in Hkey;
      rewrite ?not_elem_of_cons in Hkey;
      first [ rewrite !call_search_arxiv | rewrite !call_search_semantic_scholar
            | rewrite !call_download_paper | rewrite !call_extract_insights
            | rewrite !call_analyze_citations | rewrite !call_store_paper_knowledge ];
      rewrite !or_empty_Some;
      unfold search_arxiv, search_semantic_scholar, download_paper, extract_insights,
        analyze_citations, store_paper_knowledge;
      rewrite !args_get_insert_unread by (vm_compute; tauto);
      reflexivity.
  - by rewrite !(unknown_tool E t _ fs Hout).
Qed.

Lemma args_get_present (args : gmap pystr pyval) k d v :
  args !! u k = Some v → args_get args k d = v.
Proof. intros H. unfold args_get. by rewrite H. Qed.

Lemma args_get_insert_eq (args : gmap pystr pyval) k d v :
  args_get (<[u k := v]> args) k d = v.
Proof. unfold args_get. by rewrite lookup_insert_eq. Qed.

(** ** search_arxiv *)

Lemma sort_map_get_fallback v :
  hashable v = true → v ≠ lit "lastUpdatedDate" → v ≠ lit "submittedDate" →
  sort_map_get v = Returned Relevance.
Proof.
  intros Hh H1 H2. destruct v; try discriminate Hh; try reflexivity.
  unfold sort_map_get. repeat case_decide; subst; try reflexivity; by exfalso.
Qed.

(** X5: a [sort_by] outside the enumeration is no error.  A hashable value
    other than the two date orders makes [search_arxiv] behave as with
    [sort_by = "relevance"]. *)
Theorem search_arxiv_sort_fallback E args v fs :
  args !! u "sort_by" = Some v →
  hashable v = true → v ≠ lit "lastUpdatedDate" → v ≠ lit "submittedDate" →
  search_arxiv E args fs = search_arxiv E (<[u "sort_by" := lit "relevance"]> args) fs.
Proof.
  intros Hv Hh H1 H2. unfold search_arxiv.
  rewrite !(args_get_insert_unread _ _ _ "query"),
    !(args_get_insert_unread _ _ _ "max_results") by keys_differ.
  rewrite (args_get_present _ "sort_by" _ _ Hv), args_get_insert_eq.
  by rewrite (sort_map_get_fallback v Hh H1 H2).
Qed.

(** X6: a [sort_by] that is a list or a dict cannot be looked up in
    [sort_map]: the answer is the Failure envelope of that [TypeError],
    whatever the arXiv client would have returned. *)
Theorem search_arxiv_unhashable_sort E args v fs :
  args !! u "sort_by" = Some v →
  hashable v = false →
  search_arxiv E args fs
  = (Returned (failure_response (u ("unhashable type: '" ++ type_name v ++ "'"))), fs).
Proof.
  intros Hv Hh. unfold search_arxiv. rewrite (args_get_present _ "sort_by" _ _ Hv).
  destruct v; try discriminate Hh; reflexivity.
Qed.

(** *** The paper id *)

Lemma split_on_nonempty sep cur s : split_on sep cur s ≠ [].
Proof.
  revert cur. induction s as [|c s IH]; intros cur; cbn [split_on]; [done|].
  destruct (c =? sep)%N; [done | apply IH].
Qed.

Lemma split_on_last sep cur s :
  sep ∉ cur →
  ∃ before tail,
    List.last (split_on sep cur s) [] = tail
    ∧ reverse cur ++ s = before ++ tail
    ∧ (sep ∉ tail)
    ∧ (before = [] ∨ last before = Some sep).
Proof.
  revert cur. induction s as [|c s IH]; intros cur Hcur.
  - exists [], (reverse cur). split; [reflexivity|]. split; [by rewrite app_nil_r|].
    split; [by rewrite elem_of_reverse | by left].
  - cbn [split_on]. destruct (c =? sep)%N eqn:Hc.
    + apply N.eqb_eq in Hc as ->.
      destruct (IH [] (not_elem_of_nil _)) as (before & tail & Hl & Heq & Hno & Hb).
      exists (reverse cur ++ sep :: before), tail.
      split. { pose proof (split_on_nonempty sep [] s) as Hne.
               cbn [List.last]. by destruct (split_on sep [] s). }
      split. { cbn in Heq. rewrite Heq. by rewrite <- app_assoc. }
      split; [done|]. right.
      destruct Hb as [->|Hb].
      * by rewrite last_snoc.
      * by rewrite last_app, last_cons, Hb.
    + apply N.eqb_neq in Hc.
      destruct (IH (c :: cur)) as (before & tail & Hl & Heq & Hno & Hb).
      { rewrite not_elem_of_cons. split; [done|done]. }
      exists before, tail. split; [done|]. split; [|done].
      by rewrite reverse_cons, <- app_assoc in Heq.
Qed.

(** ** search_semantic_scholar *)

(** X8: for [fields] that is not a dict, a search answered with a status
    other than 200 gives the Failure envelope [HTTP <status>: <body text>],
    or the message of the error raised while reading the body. *)
Theorem search_semantic_scholar_http_error E args fs joined response :
  is_dict (args_get args "fields" default_fields) = false →
  str_join (u ",") (args_get args "fields" default_fields) = Returned joined →
  http_get E search_url (Some (search_params args joined)) = Returned response →
  status response ≠ 200%Z →
  search_semantic_scholar E args fs
  = (Returned (failure_response
       match resp_text response with
       | Returned error_text =>
           u "HTTP " ++ str_of_int (status response) ++ u ": " ++ error_text
       | Raised e => exc_message e
       end), fs).
Proof.
  intros _ Hj Hget Hst. apply Z.eqb_neq in Hst.
  unfold search_semantic_scholar, try_except, bind, lift.
  unfold default_fields in Hj. rewrite Hj.
  unfold search_url, search_params in Hget. rewrite Hget, Hst.
  by destruct (resp_text response).
Qed.

(** X9: for [fields] that is not a dict, a search answered 200 with a JSON
    object.  When [data] is a list, or absent, the answer is a Success
    envelope with that list as [papers] and its length as [count]; when
    [data] is null the answer is the Failure envelope of [len(None)]. *)
Theorem search_semantic_scholar_ok E args fs joined response body :
  is_dict (args_get args "fields" default_fields) = false →
  str_join (u ",") (args_get args "fields" default_fields) = Returned joined →
  http_get E search_url (Some (search_params args joined)) = Returned response →
  status response = 200%Z →
  resp_json response = Returned (PDict body) →
  (∀ papers, default (PList []) (body !! u "data") = PList papers →
     ∃ tc, search_semantic_scholar E args fs = (Returned [tc], fs)
       ∧ field tc "success" = Some (PBool true)
       ∧ field tc "query" = Some (args_get args "query" (PStr (u "")))
       ∧ field tc "count" = Some (PInt (Z.of_nat (length papers)))
       ∧ field tc "papers" = Some (PList papers))
  ∧ (body !! u "data" = Some PNone →
     search_semantic_scholar E args fs
     = (Returned (failure_response (u "object of type 'NoneType' has no len()")), fs)).
Proof.
  intros _ Hj Hget Hst Hjson. apply Z.eqb_eq in Hst.
  unfold default_fields in Hj. unfold search_url, search_params in Hget.
  split.
  - intros papers Hp.
    unfold search_semantic_scholar, try_except, bind, lift.
    rewrite Hj, Hget, Hst, Hjson. cbn [py_get]. rewrite Hp. cbn [py_len].
    eexists. split; [reflexivity|]. repeat split; by read_field.
  - intros Hp.
    unfold search_semantic_scholar, try_except, bind, lift.
    rewrite Hj, Hget, Hst, Hjson. cbn [py_get]. rewrite Hp. reflexivity.
Qed.

(** ** analyze_citations *)

(** X10: a citation request answered with a status other than 200, such as
    404 for an unknown paper, gives the Failure envelope [HTTP <status>]. *)
Theorem analyze_citations_http_error E args fs response :
  http_get E (citations_url E args) (Some citations_params) = Returned response →
  status response ≠ 200%Z →
  analyze_citations E args fs
  = (Returned (failure_response (u "HTTP " ++ str_of_int (status response))), fs).
Proof.
  intros Hget Hst. apply Z.eqb_neq in Hst.
  unfold analyze_citations, try_except, bind, lift.
  unfold citations_url, citations_params in Hget. by rewrite Hget, Hst.
Qed.

(** X11: [depth] is read and never used.  Setting it, to any value, changes
    nothing in what [analyze_citations] does. *)
Theorem analyze_citations_ignores_depth E args depth fs :
  analyze_citations E (<[u "depth" := depth]> args) fs = analyze_citations E args fs.
Proof.
  unfold analyze_citations.
  by rewrite !(args_get_insert_unread _ _ _ "paper_id") by keys_differ.
Qed.

(** X12: a citation request answered 200 with a JSON object.  With lists (or
    nothing) under [citations] and [references], the graph carries the
    [paper_id] as given, the title or null, the two counts or 0, and the
    lengths of the two lists; with null under [citations] the answer is
    the Failure envelope of [len(None)]. *)
Theorem analyze_citations_ok E args fs response body :
  http_get E (citations_url E args) (Some citations_params) = Returned response →
  status response = 200%Z →
  resp_json response = Returned (PDict body) →
  (∀ cited_by refs,
     default (PList []) (body !! u "citations") = PList cited_by →
     default (PList []) (body !! u "references") = PList refs →
     ∃ tc graph, analyze_citations E args fs = (Returned [tc], fs)
       ∧ field tc "success" = Some (PBool true)
       ∧ field tc "citation_graph" = Some graph
       ∧ item graph "paper_id" = Some (args_get args "paper_id" (PStr (u "")))
       ∧ item graph "title" = Some (default PNone (body !! u "title"))
       ∧ item graph "citation_count" = Some (default (PInt 0) (body !! u "citationCount"))
       ∧ item graph "influential_citations"
         = Some (default (PInt 0) (body !! u "influentialCitationCount"))
       ∧ item graph "citations" = Some (PInt (Z.of_nat (length cited_by)))
       ∧ item graph "references" = Some (PInt (Z.of_nat (length refs))))
  ∧ (body !! u "citations" = Some PNone →
     analyze_citations E args fs
     = (Returned (failure_response (u "object of type 'NoneType' has no len()")), fs)).
Proof.
  intros Hget Hst Hjson. apply Z.eqb_eq in Hst.
  unfold citations_url, citations_params in Hget.
  split.
  - intros cited_by refs Hc Hr.
    unfold analyze_citations, try_except, bind, lift.
    rewrite Hget, Hst, Hjson. cbn [py_get]. rewrite Hc, Hr. cbn [py_len].
    eexists _, _. split; [reflexivity|]. split; [by read_field|]. split; [by read_field|].
    unfold item.
    repeat split;
      repeat first [ rewrite lookup_insert_eq
                   | rewrite lookup_insert_ne by keys_differ
                   | rewrite lookup_singleton_eq ]; reflexivity.
  - intros Hc.
    unfold analyze_citations, try_except, bind, lift.
    rewrite Hget, Hst, Hjson. cbn [py_get]. rewrite Hc. reflexivity.
Qed.

(** X13: the only request of [analyze_citations] is the one to
    [<base>/paper/<paper_id>], the formatted [paper_id] being put in the
    path as it is; two environments that answer it alike give the same
    result. *)
Theorem analyze_citations_request E E' args fs :
  fmt_ext E' = fmt_ext E →
  http_get E' (citations_url E args) (Some citations_params)
  = http_get E (citations_url E args) (Some citations_params) →
  analyze_citations E' args fs = analyze_citations E args fs.
Proof.
  intros Hfmt Hget. unfold citations_url, citations_params in Hget.
  unfold analyze_citations, py_format in *. rewrite Hfmt. by rewrite Hget.
Qed.

(** ** download_paper *)

(** X14: a download answered with a status other than 200 gives the Failure
    envelope [HTTP <status>] and writes nothing. *)
Theorem download_paper_http_error E args fs paper_id response :
  args_get args "paper_id" (PStr (u "")) = PStr paper_id →
  http_get E (args_get args "url" (PStr (u ""))) None = Returned response →
  status response ≠ 200%Z →
  download_paper E args fs
  = (Returned (failure_response (u "HTTP " ++ str_of_int (status response))), fs).
Proof.
  intros Hid Hget Hst. apply Z.eqb_neq in Hst.
  unfold download_paper, try_except, bind, lift. rewrite Hid. cbn [re_sub_unsafe].
  by rewrite Hget, Hst.
Qed.

(** X15: a download answered 200 stores the body, and only it, at
    [PAPERS_DIR/<safe_id>.pdf]; the Success envelope reports the
    [paper_id] as given, that path, and the length of the body as
    [size_bytes]. *)
Theorem download_paper_saves_body E args fs paper_id response content :
  args_get args "paper_id" (PStr (u "")) = PStr paper_id →
  http_get E (args_get args "url" (PStr (u ""))) None = Returned response →
  status response = 200%Z →
  resp_read response = Returned content →
  write_error E (pdf_path_of E paper_id) content = None →
  ∃ tc fs', download_paper E args fs = (Returned [tc], fs')
    ∧ fs' !! pdf_path_of E paper_id = Some content
    ∧ (∀ path, path ≠ pdf_path_of E paper_id → fs' !! path = fs !! path)
    ∧ field tc "success" = Some (PBool true)
    ∧ field tc "paper_id" = Some (PStr paper_id)
    ∧ field tc "file_path" = Some (PStr (pdf_path_of E paper_id))
    ∧ field tc "size_bytes" = Some (PInt (Z.of_nat (length content))).
Proof.
  intros Hid Hget Hst Hread Hw. apply Z.eqb_eq in Hst. unfold pdf_path_of in *.
  unfold download_paper, try_except, bind, lift, write_bytes, ret.
  rewrite Hid. cbn [re_sub_unsafe]. rewrite pdf_path_eq, Hget, Hst, Hread, Hw.
  eexists _, _. split; [reflexivity|].
  split; [apply lookup_insert_eq|]. split; [intros path Hne; by apply lookup_insert_ne|].
  repeat split; by read_field.
Qed.

(** X16: a [paper_id] that is not a string stops [download_paper] at
    [re.sub]: the answer is the Failure envelope of that [TypeError],
    whatever the network would have returned, and nothing is written. *)
Theorem download_paper_rejects_non_string_id E args fs v :
  args_get args "paper_id" (PStr (u "")) = v →
  is_str v = false →
  download_paper E args fs
  = (Returned (failure_response
       (u ("expected string or bytes-like object, got '" ++ type_name v ++ "'"))), fs).
Proof.
  intros Hid Hs. unfold download_paper. rewrite Hid.
  destruct v; try discriminate Hs; reflexivity.
Qed.

(** *** File names *)

Lemma keeps_underscore E : is_word E (ch "_") || (ch "_" =? ch "-")%N = true.
Proof. reflexivity. Qed.

Lemma sanitize_idempotent E s : sanitize E (sanitize E s) = sanitize E s.
Proof.
  unfold sanitize. rewrite <- list_fmap_compose. apply list_fmap_ext.
  intros i c _. unfold compose.
  destruct (is_word E c || (c =? ch "-")%N) eqn:Hk.
  - by rewrite Hk.
  - by rewrite keeps_underscore.
Qed.

(** X18: the sanitized identifier is the identifier itself exactly when all
    its characters are word characters or hyphens. *)
Theorem safe_ids_are_kept E s :
  sanitize E s = s ↔ Forall (λ c, is_word E c || (c =? ch "-")%N = true) s.
Proof.
  unfold sanitize. induction s as [|c s IH]; [done|].
  rewrite fmap_cons, Forall_cons. split.
  - intros Heq.
    assert (Hc : (if is_word E c || (c =? ch "-")%N then c else ch "_") = c) by congruence.
    assert (Hs : (λ c, if is_word E c || (c =? ch "-")%N then c else ch "_") <$> s = s)
      by congruence.
    split; [|by apply IH].
    destruct (is_word E c || (c =? ch "-")%N) eqn:Hk; [done|].
    pose proof (keeps_underscore E) as Hu. congruence.
  - intros [Hc Hs]. rewrite Hc. f_equal. by apply IH.
Qed.

(** X17: two identifiers with the same sanitized form share one file.  For
    the same url the two downloads leave the same store, and the second
    after the first changes nothing more; sanitizing twice is sanitizing
    once. *)
Theorem download_paper_collision E args1 args2 fs id1 id2 :
  args_get args1 "paper_id" (PStr (u "")) = PStr id1 →
  args_get args2 "paper_id" (PStr (u "")) = PStr id2 →
  args_get args1 "url" (PStr (u "")) = args_get args2 "url" (PStr (u "")) →
  sanitize E id1 = sanitize E id2 →
  (download_paper E args1 fs).2 = (download_paper E args2 fs).2
  ∧ (download_paper E args2 (download_paper E args1 fs).2).2 = (download_paper E args1 fs).2
  ∧ sanitize E (sanitize E id1) = sanitize E id1.
Proof.
  intros H1 H2 Hurl Hs. split; [|split]; [| |apply sanitize_idempotent].
  - unfold download_paper, try_except, bind, lift, write_bytes, ret, failure.
    rewrite H1, H2, Hurl. cbn [re_sub_unsafe]. rewrite Hs.
    destruct (http_get E _ None) as [response|e]; [|done].
    destruct (status response =? 200)%Z; [|done].
    destruct (resp_read response) as [content|e]; [|done].
    by destruct (write_error E _ content).
  - unfold download_paper, try_except, bind, lift, write_bytes, ret, failure.
    rewrite H1, H2, Hurl. cbn [re_sub_unsafe]. rewrite Hs.
    destruct (http_get E _ None) as [response|e]; [|done].
    destruct (status response =? 200)%Z; [|done].
    destruct (resp_read response) as [content|e]; [|done].
    destruct (write_error E _ content); cbn [snd]; [done|].
    by rewrite insert_insert_eq.
Qed.

(** ** search_arxiv: the papers of a successful response *)

(** X7: a successful [search_arxiv] response lists one paper per result
    that the arXiv client yields for the query, the limit and the sort order
    of the call, in the client's order, with their number as [count] and the
    query echoed; the [id] of a paper is what follows the last ['/'] of the
    result's [entry_id] (the whole of it when there is none), and holds no
    ['/']. *)
Theorem search_arxiv_paper_ids E args fs tc fs' :
  search_arxiv E args fs = (Returned [tc], fs') →
  field tc "success" = Some (PBool true) →
  ∃ sort_by found,
    sort_map_get (args_get args "sort_by" (PStr (u "relevance"))) = Returned sort_by
    ∧ arxiv_results E (args_get args "query" (PStr (u "")))
        (args_get args "max_results" (PInt 10)) sort_by = Returned found
    ∧ field tc "papers" = Some (PList (paper_data <$> found))
    ∧ field tc "count" = Some (PInt (Z.of_nat (length found)))
    ∧ field tc "query" = Some (args_get args "query" (PStr (u "")))
    ∧ Forall (λ result,
        ∃ before paper_id,
          item (paper_data result) "id" = Some (PStr paper_id)
          ∧ entry_id result = before ++ paper_id
          ∧ (ch "/" ∉ paper_id)
          ∧ (before = [] ∨ last before = Some (ch "/"))) found.
Proof.
  intros Hrun Hok. unfold search_arxiv, try_except in Hrun.
  match type of Hrun with
  | match ?body ?f with _ => _ end = _ => destruct (body f) as [[r|e] fs1] eqn:Hbody
  end.
  - injection Hrun as -> ->. py_inv Hbody. apply ret_inv in Hbody as [[= ->] _].
    eexists _, _. split; [eassumption|]. split; [eassumption|].
    split; [by read_field|]. split; [read_field; by rewrite length_fmap|].
    split; [by read_field|].
    apply Forall_forall. intros result _.
    destruct (split_on_last (ch "/") [] (entry_id result) (not_elem_of_nil _))
      as (before & tail & Hl & Heq & Hno & Hb).
    exists before, tail. split; [|done].
    unfold paper_data, str_split, item. rewrite lookup_insert_eq. by rewrite Hl.
  - unfold failure, ret in Hrun. inversion Hrun; subst. revert Hok. read_field. discriminate.
Qed.

(** ** extract_insights *)

Lemma extract_insights_of_string E args fs paper_text :
  args_get args "paper_text" (PStr (u "")) = PStr paper_text →
  extract_insights E args fs =
  (Returned [text_content
     (PDict {[ u "success" := PBool true;
               u "insights" :=
                 PList (PStr <$> (strip <$>
                   take 10 (filter (λ s, qualifies E s) (re_split_sentences paper_text))));
               u "focus_areas" := args_get args "focus_areas" (PList []) ]}) (Some 2%nat)], fs).
Proof.
  intros Hget. unfold extract_insights. rewrite Hget.
  unfold bind, lift, try_except, re_split, py_len, ret.
  by rewrite collect_insights_spec by (cbn; lia).
Qed.

(** X19: for a string [paper_text], [extract_insights] always succeeds, and
    the insights are exactly the first ten qualifying sentences, stripped,
    in order; [focus_areas] is echoed and plays no part. *)
Theorem extract_insights_exact E args fs paper_text :
  args_get args "paper_text" (PStr (u "")) = PStr paper_text →
  ∃ tc, extract_insights E args fs = (Returned [tc], fs)
    ∧ field tc "success" = Some (PBool true)
    ∧ field tc "insights"
      = Some (PList (PStr <$> (strip <$>
                take 10 (filter (λ s, qualifies E s) (re_split_sentences paper_text)))))
    ∧ field tc "focus_areas" = Some (args_get args "focus_areas" (PList [])).
Proof.
  intros Hget. rewrite (extract_insights_of_string E args fs paper_text Hget).
  eexists. split; [reflexivity|]. repeat split; by read_field.
Qed.

(** X20: a [paper_text] that is a list or a dict passes [len] and stops at
    [re.split]: the answer is the Failure envelope of that [TypeError]. *)
Theorem extract_insights_rejects_containers E args fs v :
  args_get args "paper_text" (PStr (u "")) = v →
  has_len v = true → is_str v = false →
  extract_insights E args fs
  = (Returned (failure_response
       (u ("expected string or bytes-like object, got '" ++ type_name v ++ "'"))), fs).
Proof.
  intros Hget Hl Hs. unfold extract_insights. rewrite Hget.
  destruct v; try discriminate Hl; try discriminate Hs; reflexivity.
Qed.

(** *** Stripped sentences *)

Lemma dropwhile_suffix p s : ∃ pre, s = pre ++ dropwhile p s.
Proof.
  induction s as [|c s [pre IH]]; [by exists []|].
  cbn [dropwhile]. destruct (p c).
  - exists (c :: pre). cbn. by f_equal.
  - by exists [].
Qed.

Lemma dropwhile_head p s c : head (dropwhile p s) = Some c → p c = false.
Proof.
  induction s as [|c' s IH]; [done|]. cbn [dropwhile].
  destruct (p c') eqn:Hp; [done|]. by intros [= <-].
Qed.

Lemma dropwhile_length p s : (length (dropwhile p s) ≤ length s)%nat.
Proof.
  induction s as [|c s IH]; [done|]. cbn [dropwhile].
  destruct (p c); cbn [length]; lia.
Qed.

Lemma last_suffix {A} (pre l : list A) c : last l = Some c → last (pre ++ l) = Some c.
Proof. intros H. by rewrite last_app, H. Qed.

Lemma strip_trimmed s :
  (length (strip s) ≤ length s)%nat
  ∧ (∀ c, head (strip s) = Some c → isspace c = false)
  ∧ (∀ c, last (strip s) = Some c → isspace c = false).
Proof.
  unfold strip. split; [|split].
  - rewrite length_reverse.
    etrans; [apply dropwhile_length|]. rewrite length_reverse. apply dropwhile_length.
  - intros c Hc. rewrite head_reverse in Hc.
    destruct (dropwhile_suffix isspace (reverse (dropwhile isspace s))) as [pre Hpre].
    apply (last_suffix pre) in Hc. rewrite <- Hpre, last_reverse in Hc.
    by eapply dropwhile_head.
  - intros c Hc. rewrite last_reverse in Hc. by eapply dropwhile_head.
Qed.

(** X21: every returned insight is a string of fewer than 300 characters
    that neither starts nor ends with whitespace. *)
Theorem insights_are_trimmed E args fs tc fs' items :
  extract_insights E args fs = (Returned [tc], fs') →
  field tc "success" = Some (PBool true) →
  field tc "insights" = Some (PList items) →
  Forall (λ v, ∃ insight,
      v = PStr insight
      ∧ (length insight < 300)%nat
      ∧ (∀ c, head insight = Some c → isspace c = false)
      ∧ (∀ c, last insight = Some c → isspace c = false)) items.
Proof.
  intros Hrun Hok Hitems.
  destruct (args_get args "paper_text" (PStr (u ""))) as [| | | |paper_text| |] eqn:Hget.
  1-4: unfold extract_insights, bind at 1, lift at 1 in Hrun; rewrite Hget in Hrun;
       discriminate Hrun.
  - rewrite (extract_insights_of_string E args fs paper_text Hget) in Hrun.
    injection Hrun as <- _. revert Hitems. read_field. intros [= <-].
    rewrite <- list_fmap_compose. apply Forall_fmap, Forall_forall.
    intros s Hs. apply subseteq_take, list_elem_of_filter in Hs as [Hq _].
    exists (strip s). split; [done|].
    destruct (strip_trimmed s) as (Hlen & Hhead & Hlast).
    apply Is_true_true, qualifies_spec in Hq as [[_ Hlt] _]. split; [lia|done].
  - unfold extract_insights in Hrun. rewrite Hget in Hrun.
    injection Hrun as <- _. revert Hok. read_field. discriminate.
  - unfold extract_insights in Hrun. rewrite Hget in Hrun.
    injection Hrun as <- _. revert Hok. read_field. discriminate.
Qed.

(** ** store_paper_knowledge *)

(** The body of the [try], once the metadata is known to be a dict. *)
Lemma store_paper_knowledge_success E args fs meta tc fs' :
  args_get args "paper_metadata" (PDict ∅) = PDict meta →
  store_paper_knowledge E args fs = (Returned [tc], fs') →
  field tc "success" = Some (PBool true) →
  ∃ encoded joined insight_items technique_items,
    py_encode E (default (PStr (u "")) (meta !! u "title")) = Returned encoded
    ∧ str_join (u ", ") (default (PList []) (meta !! u "authors")) = Returned joined
    ∧ py_iter (args_get args "insights" (PList []))
        (not_iterable (args_get args "insights" (PList []))) = Returned insight_items
    ∧ py_iter (args_get args "techniques" (PList []))
        (not_iterable (args_get args "techniques" (PList []))) = Returned technique_items
    ∧ field tc "entity_name"
      = Some (PStr (u "research_paper_"
                    ++ py_format E (default (PStr (take 8 (md5_hexdigest E encoded)))
                                      (meta !! u "id"))))
    ∧ field tc "observations_count"
      = Some (PInt (4 + Z.of_nat (length insight_items) + Z.of_nat (length technique_items))).
Proof.
  intros Hmeta Hrun Hok. unfold store_paper_knowledge in Hrun. rewrite Hmeta in Hrun.
  apply bind_returned_inv in Hrun as (v0 & fs0 & _ & Hrun).
  unfold try_except in Hrun.
  match type of Hrun with
  | match ?body ?f with _ => _ end = _ => destruct (body f) as [[r|e] fs1] eqn:Hbody
  end.
  - injection Hrun as -> ->. py_inv Hbody. apply ret_inv in Hbody as [[= ->] _].
    cbn [py_get] in *.
    repeat match goal with H : Returned _ = Returned _ |- _ => injection H as <- end.
    eexists _, _, _, _. split; [eassumption|]. split; [eassumption|].
    split; [eassumption|]. split; [eassumption|]. split; [by read_field|].
    read_field. do 2 f_equal. rewrite !length_app, !length_fmap. cbn [length]. lia.
  - unfold failure, ret in Hrun. inversion Hrun; subst. revert Hok. read_field. discriminate.
Qed.

(** X22: the entity name of a successful response is [research_paper_]
    followed by [str(id)] when the metadata has an [id], and by the first
    eight characters of the md5 digest of the title otherwise. *)
Theorem store_entity_name E args fs meta tc fs' :
  args_get args "paper_metadata" (PDict ∅) = PDict meta →
  store_paper_knowledge E args fs = (Returned [tc], fs') →
  field tc "success" = Some (PBool true) →
  (∀ paper_key, meta !! u "id" = Some paper_key →
     field tc "entity_name" = Some (PStr (u "research_paper_" ++ py_format E paper_key)))
  ∧ (meta !! u "id" = None →
     ∃ paper_title encoded,
       default (PStr (u "")) (meta !! u "title") = PStr paper_title
       ∧ str_encode E paper_title = Returned encoded
       ∧ field tc "entity_name"
         = Some (PStr (u "research_paper_" ++ take 8 (md5_hexdigest E encoded)))).
Proof.
  intros Hmeta Hrun Hok.
  destruct (store_paper_knowledge_success _ _ _ _ _ _ Hmeta Hrun Hok)
    as (encoded & joined & li & lt & Henc & _ & _ & _ & Hname & _).
  split.
  - intros paper_key Hid. by rewrite Hid in Hname.
  - intros Hid. rewrite Hid in Hname.
    destruct (default (PStr (u "")) (meta !! u "title")) as [| | | |paper_title| |];
      try discriminate Henc.
    exists paper_title, encoded. done.
Qed.

(** X23: a title that is not a string fails the call even when an [id] is
    given: the default of [.get('id', ...)] hashes the title in every
    case. *)
Theorem store_rejects_non_string_title E args fs meta v :
  args_get args "paper_metadata" (PDict ∅) = PDict meta →
  meta !! u "title" = Some v →
  is_str v = false →
  store_paper_knowledge E args fs
  = (Returned (failure_response
       (u ("'" ++ type_name v ++ "' object has no attribute 'encode'"))), fs).
Proof.
  intros Hmeta Ht Hs. unfold store_paper_knowledge. rewrite Hmeta.
  unfold bind, lift, try_except, py_get. rewrite Ht. cbn [default from_option id].
  destruct v; try discriminate Hs; reflexivity.
Qed.

(** X24: [insights] given as one string is iterated character by character.
    A successful response then has
    [observations_count = 4 + len(text) + len(techniques)]. *)
Theorem store_counts_characters E args fs text techniques tc fs' :
  args !! u "insights" = Some (PStr text) →
  args_get args "techniques" (PList []) = PList techniques →
  store_paper_knowledge E args fs = (Returned [tc], fs') →
  field tc "success" = Some (PBool true) →
  field tc "observations_count"
  = Some (PInt (4 + Z.of_nat (length text) + Z.of_nat (length techniques))).
Proof.
  intros Hi Ht Hrun Hok.
  destruct (args_get args "paper_metadata" (PDict ∅)) as [| | | | | |meta] eqn:Hmeta.
  1-6: unfold store_paper_knowledge, bind at 1, lift at 1 in Hrun; rewrite Hmeta in Hrun;
       discriminate Hrun.
  destruct (store_paper_knowledge_success _ _ _ _ _ _ Hmeta Hrun Hok)
    as (encoded & joined & li & lt & _ & _ & Hli & Hlt & _ & Hcount).
  rewrite (args_get_present _ "insights" _ _ Hi) in Hli. rewrite Ht in Hlt.
  cbn in Hli, Hlt. injection Hli as <-. injection Hlt as <-.
  by rewrite length_fmap in Hcount.
Qed.

Lemma join_items_non_string sep i items :
  Exists (λ v, is_str v = false) items → ∃ e, join_items sep i items = Raised e.
Proof.
  intros Hex. revert i. induction Hex as [v rest Hv|v rest Hex IH]; intros i.
  - destruct v; try discriminate Hv; cbn; eauto.
  - cbn [join_items]. destruct v; eauto.
    destruct rest as [|w rest]; [by apply Exists_nil in Hex|].
    destruct (IH (S i)) as [e ->]. eauto.
Qed.

(** X25: an [authors] list with an entry that is not a string makes the call
    answer with a Failure envelope: [', '.join] refuses it. *)
Theorem store_needs_string_authors E args fs meta people :
  args_get args "paper_metadata" (PDict ∅) = PDict meta →
  meta !! u "authors" = Some (PList people) →
  Exists (λ v, is_str v = false) people →
  ∃ message,
    store_paper_knowledge E args fs = (Returned (failure_response message), fs).
Proof.
  intros Hmeta Ha Hex.
  destruct (store_paper_knowledge_answers E args fs (default (PStr (u "Unknown")) (meta !! u "title")))
    as (tc & fs' & Hrun).
  { by rewrite Hmeta. }
  pose proof (store_paper_knowledge_keeps_store E args fs) as Hk.
  rewrite Hrun in Hk. cbn in Hk. subst fs'.
  destruct (store_paper_knowledge_shape _ _ _ _ _ Hrun) as [(tc' & [= <-] & _ & Hok & _)|[m Hm]].
  - destruct (store_paper_knowledge_success _ _ _ _ _ _ Hmeta Hrun Hok)
      as (_ & joined & _ & _ & _ & Hj & _).
    rewrite Ha in Hj. cbn [default from_option id] in Hj.
    unfold str_join in Hj. cbn [py_iter] in Hj.
    destruct (join_items_non_string (u ", ") 0 people Hex) as [e He].
    rewrite He in Hj. discriminate Hj.
  - exists m. by rewrite Hrun, Hm.
Qed.

(** ** The catalogue *)


(** ** cli_search.py *)

(** X27: the command-line search returns one paper per result and prints no
    error; each paper has [citations = 0] and one insight, the first 200
    characters of the abstract (all of it when it is shorter). *)
Theorem cli_preview search_results query limit :
  ∀ found, search_results query (default (PInt 5) limit) Relevance = Returned found →
    cli_search.search_arxiv search_results query limit = (cli_search.paper <$> found, [])
    ∧ length (cli_search.search_arxiv search_results query limit).1 = length found
    ∧ Forall (λ result,
        ∃ preview rest,
          item (cli_search.paper result) "insights" = Some (PList [PStr preview])
          ∧ summary result = preview ++ rest
          ∧ length preview = (length (summary result) `min` 200)%nat
          ∧ item (cli_search.paper result) "citations" = Some (PInt 0)) found.
Proof.
  intros found Hfound. unfold cli_search.search_arxiv. rewrite Hfound.
  split; [done|]. split; [cbn; by rewrite length_fmap|].
  apply Forall_forall. intros result _.
  exists (take 200 (summary result)), (drop 200 (summary result)).
  unfold item, cli_search.paper.
  split.
  { repeat first [ rewrite lookup_insert_ne by keys_differ
                 | rewrite lookup_singleton_eq ]. reflexivity. }
  split; [by rewrite take_drop|]. split; [rewrite length_take; lia|].
  repeat first [ rewrite lookup_insert_eq | rewrite lookup_insert_ne by keys_differ ].
  reflexivity.
Qed.

(** X28: the command line and the server describe a result alike: same
    title, abstract, authors, dates, URL and categories; the id of the
    command line is the whole [entry_id], that of the server its last
    segment. *)
Theorem cli_and_server_agree result :
  ∃ long_id short_id before,
    item (cli_search.paper result) "id" = Some (PStr long_id)
    ∧ item (paper_data result) "id" = Some (PStr short_id)
    ∧ long_id = before ++ short_id
    ∧ (ch "/" ∉ short_id)
    ∧ (before = [] ∨ last before = Some (ch "/"))
    ∧ Forall (λ key, item (cli_search.paper result) key = item (paper_data result) key)
        ["title"; "abstract"; "authors"; "published"; "pdf_url"; "categories"].
Proof.
  destruct (split_on_last (ch "/") [] (entry_id result) (not_elem_of_nil _))
    as (before & tail & Hl & Heq & Hno & Hb).
  exists (entry_id result), tail, before.
  split; [unfold item, cli_search.paper; by rewrite lookup_insert_eq|].
  split; [unfold item, paper_data, str_split; by rewrite lookup_insert_eq, Hl|].
  split; [done|]. split; [done|]. split; [done|].
  repeat apply Forall_cons_2; [..|apply Forall_nil_2];
    unfold item, cli_search.paper, paper_data;
    repeat first [ rewrite lookup_insert_eq | rewrite lookup_insert_ne by keys_differ ];
    reflexivity.
Qed.

(** X29: [main] writes one document on stdout in every case: the papers, or
    the empty list when the search raised, the error then going to stderr
    as [{"error": message}]. *)
Theorem cli_main_output search_results args :
  match search_results (PStr (cli_search.query args))
          (PInt (cli_search.max_results args)) Relevance with
  | Returned found =>
      cli_search.main search_results args
      = ([json_dumps (PList (cli_search.paper <$> found)) (Some 2%nat)], [])
  | Raised e =>
      cli_search.main search_results args
      = ([json_dumps (PList []) (Some 2%nat)],
         [json_dumps (PDict {[ u "error" := PStr (exc_message e) ]}) None])
  end.
Proof.
  unfold cli_search.main, cli_search.search_arxiv. cbn [default from_option id].
  by destruct (search_results _ _ Relevance).
Qed.

(** ** The further properties at concrete inputs *)

Lemma call_tool_raises_iff_witness :
  has_len (PInt 5) = false
  ∧ handle_call_tool offline (u "extract_insights") (Some five_as_text) ∅
    = (Raised (TypeError (u "object of type 'int' has no len()")), ∅).
Proof.
  split; [reflexivity|].
  apply (proj2 (call_tool_raises_iff offline (u "extract_insights") (Some five_as_text) ∅
                  (TypeError (u "object of type 'int' has no len()")) ∅)).
  split; [reflexivity|]. right. left. split; [reflexivity|].
  exists (PInt 5). split; [reflexivity|]. split; reflexivity.
Defined.

Lemma call_tool_store_frame_witness :
  handle_call_tool online (u "search_arxiv") (Some self_improvement) ∅
  = ((handle_call_tool online (u "search_arxiv") (Some self_improvement) ∅).1,
     (handle_call_tool online (u "search_arxiv") (Some self_improvement) ∅).2)
  ∧ (u "search_arxiv" ≠ u "download_paper")
  ∧ (handle_call_tool online (u "search_arxiv") (Some self_improvement) ∅).2 = ∅.
Proof.
  assert (H1 : handle_call_tool online (u "search_arxiv") (Some self_improvement) ∅
               = ((handle_call_tool online (u "search_arxiv") (Some self_improvement) ∅).1,
                  (handle_call_tool online (u "search_arxiv") (Some self_improvement) ∅).2))
    by reflexivity.
  assert (H2 : u "search_arxiv" ≠ u "download_paper") by (vm_compute; discriminate).
  split; [exact H1|]. split; [exact H2|].
  exact (proj1 (call_tool_store_frame online (u "search_arxiv") (Some self_improvement) ∅
                  _ _ H1) H2).
Defined.

Lemma call_tool_response_shape_witness :
  ∃ r fs', handle_call_tool unavailable (u "analyze_citations") (Some unknown_paper) ∅
           = (Returned r, fs')
    ∧ ∃ tc, r = [tc] ∧ type_ tc = u "text"
        ∧ ((field tc "success" = Some (PBool true) ∧ field tc "error" = None)
           ∨ ∃ message, r = failure_response message).
Proof.
  eexists _, _. split; [reflexivity|].
  eapply (call_tool_response_shape unavailable (u "analyze_citations") (Some unknown_paper) ∅).
  reflexivity.
Defined.

Lemma unread_keys_ignored_witness :
  (u "verbose" ∉ keys_read (u "search_arxiv"))
  ∧ handle_call_tool online (u "search_arxiv")
      (Some (<[u "verbose" := PBool true]> self_improvement)) ∅
    = handle_call_tool online (u "search_arxiv") (Some self_improvement) ∅.
Proof.
  assert (H : u "verbose" ∉ keys_read (u "search_arxiv")).
  { apply (bool_decide_unpack _). vm_compute. exact I. }
  split; [exact H|].
  exact (unread_keys_ignored online (u "search_arxiv") self_improvement (u "verbose")
           (PBool true) ∅ H).
Defined.

Lemma search_arxiv_sort_fallback_witness :
  newest_first !! u "sort_by" = Some (lit "newest")
  ∧ hashable (lit "newest") = true
  ∧ lit "newest" ≠ lit "lastUpdatedDate"
  ∧ lit "newest" ≠ lit "submittedDate"
  ∧ search_arxiv online newest_first ∅
    = search_arxiv online (<[u "sort_by" := lit "relevance"]> newest_first) ∅.
Proof.
  assert (H1 : newest_first !! u "sort_by" = Some (lit "newest")) by reflexivity.
  assert (H2 : hashable (lit "newest") = true) by reflexivity.
  assert (H3 : lit "newest" ≠ lit "lastUpdatedDate") by (vm_compute; discriminate).
  assert (H4 : lit "newest" ≠ lit "submittedDate") by (vm_compute; discriminate).
  split; [exact H1|]. split; [exact H2|]. split; [exact H3|]. split; [exact H4|].
  exact (search_arxiv_sort_fallback online newest_first (lit "newest") ∅ H1 H2 H3 H4).
Defined.

Lemma search_arxiv_unhashable_sort_witness :
  sorted_by_list !! u "sort_by" = Some (PList [lit "relevance"])
  ∧ hashable (PList [lit "relevance"]) = false
  ∧ search_arxiv online sorted_by_list ∅
    = (Returned (failure_response (u "unhashable type: 'list'")), ∅).
Proof.
  assert (H1 : sorted_by_list !! u "sort_by" = Some (PList [lit "relevance"])) by reflexivity.
  assert (H2 : hashable (PList [lit "relevance"]) = false) by reflexivity.
  split; [exact H1|]. split; [exact H2|].
  exact (search_arxiv_unhashable_sort online sorted_by_list _ ∅ H1 H2).
Defined.

Lemma search_arxiv_paper_ids_witness :
  ∃ tc fs', search_arxiv online self_improvement ∅ = (Returned [tc], fs')
    ∧ field tc "success" = Some (PBool true)
    ∧ ∃ sort_by found,
        arxiv_results online (args_get self_improvement "query" (PStr (u "")))
          (args_get self_improvement "max_results" (PInt 10)) sort_by = Returned found
        ∧ field tc "papers" = Some (PList (paper_data <$> found))
        ∧ field tc "count" = Some (PInt (Z.of_nat (length found))).
Proof.
  eexists _, _. split; [reflexivity|]. split; [reflexivity|].
  destruct (search_arxiv_paper_ids online self_improvement ∅ _ _ eq_refl eq_refl)
    as (sort_by & found & _ & Hf & Hp & Hc & _).
  exists sort_by, found. split; [exact Hf|]. split; [exact Hp | exact Hc].
Defined.

Lemma search_semantic_scholar_http_error_witness :
  is_dict (args_get self_improvement "fields" default_fields) = false
  ∧ str_join (u ",") (args_get self_improvement "fields" default_fields)
  = Returned (u "title,authors,abstract,citationCount,year")
  ∧ http_get unavailable search_url
      (Some (search_params self_improvement (u "title,authors,abstract,citationCount,year")))
    = Returned not_found
  ∧ status not_found ≠ 200%Z
  ∧ search_semantic_scholar unavailable self_improvement ∅
    = (Returned (failure_response (u "HTTP 404: Not found")), ∅).
Proof.
  assert (H1 : str_join (u ",") (args_get self_improvement "fields" default_fields)
               = Returned (u "title,authors,abstract,citationCount,year")) by reflexivity.
  assert (H2 : http_get unavailable search_url
                 (Some (search_params self_improvement
                          (u "title,authors,abstract,citationCount,year")))
               = Returned not_found) by reflexivity.
  assert (H3 : status not_found ≠ 200%Z) by (cbn; lia).
  assert (H0 : is_dict (args_get self_improvement "fields" default_fields) = false)
    by reflexivity.
  split; [exact H0|]. split; [exact H1|]. split; [exact H2|]. split; [exact H3|].
  exact (search_semantic_scholar_http_error unavailable self_improvement ∅ _ _ H0 H1 H2 H3).
Defined.

Lemma search_semantic_scholar_ok_witness :
  is_dict (args_get self_improvement "fields" default_fields) = false
  ∧ ∃ tc, search_semantic_scholar online self_improvement ∅ = (Returned [tc], ∅)
    ∧ field tc "count" = Some (PInt 0)
    ∧ field tc "papers" = Some (PList []).
Proof.
  assert (H1 : str_join (u ",") (args_get self_improvement "fields" default_fields)
               = Returned (u "title,authors,abstract,citationCount,year")) by reflexivity.
  assert (H0 : is_dict (args_get self_improvement "fields" default_fields) = false)
    by reflexivity.
  split; [exact H0|].
  destruct (proj1 (search_semantic_scholar_ok online self_improvement ∅ _ _
                     {[ u "data" := PList [] ]} H0 H1 eq_refl eq_refl eq_refl) [] eq_refl)
    as (tc & Hrun & _ & _ & Hc & Hp).
  exists tc. split; [exact Hrun|]. split; [exact Hc | exact Hp].
Defined.

Lemma analyze_citations_http_error_witness :
  http_get unavailable (citations_url unavailable unknown_paper) (Some citations_params)
  = Returned not_found
  ∧ status not_found ≠ 200%Z
  ∧ analyze_citations unavailable unknown_paper ∅
    = (Returned (failure_response (u "HTTP 404")), ∅).
Proof.
  assert (H1 : http_get unavailable (citations_url unavailable unknown_paper)
                 (Some citations_params) = Returned not_found) by reflexivity.
  assert (H2 : status not_found ≠ 200%Z) by (cbn; lia).
  split; [exact H1|]. split; [exact H2|].
  exact (analyze_citations_http_error unavailable unknown_paper ∅ not_found H1 H2).
Defined.

Lemma analyze_citations_ok_witness :
  ∃ tc graph, analyze_citations online unknown_paper ∅ = (Returned [tc], ∅)
    ∧ field tc "citation_graph" = Some graph
    ∧ item graph "citations" = Some (PInt 0)
    ∧ item graph "title" = Some PNone.
Proof.
  destruct (proj1 (analyze_citations_ok online unknown_paper ∅ _ {[ u "data" := PList [] ]}
                     eq_refl eq_refl eq_refl) [] [] eq_refl eq_refl)
    as (tc & graph & Hrun & _ & Hg & _ & Ht & _ & _ & Hc & _).
  exists tc, graph. split; [exact Hrun|]. split; [exact Hg|]. split; [exact Hc | exact Ht].
Defined.

Lemma analyze_citations_request_witness :
  fmt_ext read_only = fmt_ext online
  ∧ http_get read_only (citations_url online unknown_paper) (Some citations_params)
    = http_get online (citations_url online unknown_paper) (Some citations_params)
  ∧ analyze_citations read_only unknown_paper ∅ = analyze_citations online unknown_paper ∅.
Proof.
  split; [reflexivity|]. split; [reflexivity|].
  exact (analyze_citations_request online read_only unknown_paper ∅ eq_refl eq_refl).
Defined.

Lemma download_paper_http_error_witness :
  args_get abc_123 "paper_id" (PStr (u "")) = PStr (u "abc/123")
  ∧ http_get unavailable (args_get abc_123 "url" (PStr (u ""))) None = Returned not_found
  ∧ status not_found ≠ 200%Z
  ∧ download_paper unavailable abc_123 ∅
    = (Returned (failure_response (u "HTTP 404")), ∅).
Proof.
  assert (H1 : args_get abc_123 "paper_id" (PStr (u "")) = PStr (u "abc/123")) by reflexivity.
  assert (H2 : http_get unavailable (args_get abc_123 "url" (PStr (u ""))) None
               = Returned not_found) by reflexivity.
  assert (H3 : status not_found ≠ 200%Z) by (cbn; lia).
  split; [exact H1|]. split; [exact H2|]. split; [exact H3|].
  exact (download_paper_http_error unavailable abc_123 ∅ _ not_found H1 H2 H3).
Defined.

Lemma download_paper_saves_body_witness :
  args_get abc_123 "paper_id" (PStr (u "")) = PStr (u "abc/123")
  ∧ write_error online (pdf_path_of online (u "abc/123")) [37; 80; 68; 70]%N = None
  ∧ ∃ tc fs', download_paper online abc_123 ∅ = (Returned [tc], fs')
      ∧ fs' !! pdf_path_of online (u "abc/123") = Some [37; 80; 68; 70]%N
      ∧ field tc "size_bytes" = Some (PInt 4).
Proof.
  assert (H1 : args_get abc_123 "paper_id" (PStr (u "")) = PStr (u "abc/123")) by reflexivity.
  assert (H5 : write_error online (pdf_path_of online (u "abc/123")) [37; 80; 68; 70]%N = None)
    by reflexivity.
  split; [exact H1|]. split; [exact H5|].
  destruct (download_paper_saves_body online abc_123 ∅ _ _ _ H1 eq_refl eq_refl eq_refl H5)
    as (tc & fs' & Hrun & Hfile & _ & _ & _ & _ & Hsize).
  exists tc, fs'. split; [exact Hrun|]. split; [exact Hfile | exact Hsize].
Defined.

Lemma download_paper_rejects_non_string_id_witness :
  args_get numbered_paper "paper_id" (PStr (u "")) = PInt 123
  ∧ is_str (PInt 123) = false
  ∧ download_paper online numbered_paper ∅
    = (Returned (failure_response (u "expected string or bytes-like object, got 'int'")), ∅).
Proof.
  assert (H1 : args_get numbered_paper "paper_id" (PStr (u "")) = PInt 123) by reflexivity.
  assert (H2 : is_str (PInt 123) = false) by reflexivity.
  split; [exact H1|]. split; [exact H2|].
  exact (download_paper_rejects_non_string_id online numbered_paper ∅ _ H1 H2).
Defined.

Lemma download_paper_collision_witness :
  args_get abc_123 "paper_id" (PStr (u "")) = PStr (u "abc/123")
  ∧ args_get abc_underscore_123 "paper_id" (PStr (u "")) = PStr (u "abc_123")
  ∧ sanitize online (u "abc/123") = sanitize online (u "abc_123")
  ∧ (download_paper online abc_123 ∅).2 = (download_paper online abc_underscore_123 ∅).2.
Proof.
  assert (H1 : args_get abc_123 "paper_id" (PStr (u "")) = PStr (u "abc/123")) by reflexivity.
  assert (H2 : args_get abc_underscore_123 "paper_id" (PStr (u "")) = PStr (u "abc_123"))
    by reflexivity.
  assert (H3 : args_get abc_123 "url" (PStr (u ""))
               = args_get abc_underscore_123 "url" (PStr (u ""))) by reflexivity.
  assert (H4 : sanitize online (u "abc/123") = sanitize online (u "abc_123")) by reflexivity.
  split; [exact H1|]. split; [exact H2|]. split; [exact H4|].
  exact (proj1 (download_paper_collision online abc_123 abc_underscore_123 ∅ _ _
                  H1 H2 H3 H4)).
Defined.

Lemma safe_ids_are_kept_witness :
  Forall (λ c, is_word online c || (c =? ch "-")%N = true) (u "2401-00001_v1")
  ∧ sanitize online (u "2401-00001_v1") = u "2401-00001_v1".
Proof.
  assert (H : Forall (λ c, is_word online c || (c =? ch "-")%N = true) (u "2401-00001_v1")).
  { repeat constructor. }
  split; [exact H|].
  exact (proj2 (safe_ids_are_kept online (u "2401-00001_v1")) H).
Defined.

Lemma extract_insights_exact_witness :
  args_get scenario_args "paper_text" (PStr (u ""))
  = PStr (the_sentence ++ u " It works.")
  ∧ ∃ tc, extract_insights offline scenario_args ∅ = (Returned [tc], ∅)
      ∧ field tc "success" = Some (PBool true).
Proof.
  assert (H : args_get scenario_args "paper_text" (PStr (u ""))
              = PStr (the_sentence ++ u " It works.")) by reflexivity.
  split; [exact H|].
  destruct (extract_insights_exact offline scenario_args ∅ _ H) as (tc & Hrun & Hok & _).
  exists tc. split; [exact Hrun | exact Hok].
Defined.

Lemma extract_insights_rejects_containers_witness :
  args_get chapters_as_text "paper_text" (PStr (u "")) = PList [lit "one"]
  ∧ has_len (PList [lit "one"]) = true
  ∧ is_str (PList [lit "one"]) = false
  ∧ extract_insights offline chapters_as_text ∅
    = (Returned (failure_response (u "expected string or bytes-like object, got 'list'")), ∅).
Proof.
  assert (H1 : args_get chapters_as_text "paper_text" (PStr (u "")) = PList [lit "one"])
    by reflexivity.
  assert (H2 : has_len (PList [lit "one"]) = true) by reflexivity.
  assert (H3 : is_str (PList [lit "one"]) = false) by reflexivity.
  split; [exact H1|]. split; [exact H2|]. split; [exact H3|].
  exact (extract_insights_rejects_containers offline chapters_as_text ∅ _ H1 H2 H3).
Defined.

Lemma insights_are_trimmed_witness :
  extract_insights offline scenario_args ∅ = (Returned [scenario_response], ∅)
  ∧ field scenario_response "success" = Some (PBool true)
  ∧ field scenario_response "insights" = Some (PList [PStr the_sentence_body])
  ∧ Forall (λ v, ∃ insight,
        v = PStr insight
        ∧ (length insight < 300)%nat
        ∧ (∀ c, head insight = Some c → isspace c = false)
        ∧ (∀ c, last insight = Some c → isspace c = false)) [PStr the_sentence_body].
Proof.
  assert (H1 : extract_insights offline scenario_args ∅ = (Returned [scenario_response], ∅)).
  { vm_compute. reflexivity. }
  assert (H2 : field scenario_response "success" = Some (PBool true)) by reflexivity.
  assert (H3 : field scenario_response "insights" = Some (PList [PStr the_sentence_body]))
    by reflexivity.
  split; [exact H1|]. split; [exact H2|]. split; [exact H3|].
  exact (insights_are_trimmed offline scenario_args ∅ scenario_response ∅ _ H1 H2 H3).
Defined.

Lemma store_entity_name_witness :
  store_paper_knowledge offline stored_paper ∅ = (Returned [stored_response], ∅)
  ∧ field stored_response "success" = Some (PBool true)
  ∧ field stored_response "entity_name"
    = Some (PStr (u "research_paper_" ++ py_format offline (lit "2401.00001"))).
Proof.
  assert (H1 : store_paper_knowledge offline stored_paper ∅ = (Returned [stored_response], ∅)).
  { vm_compute. reflexivity. }
  assert (H2 : field stored_response "success" = Some (PBool true)) by reflexivity.
  split; [exact H1|]. split; [exact H2|].
  exact (proj1 (store_entity_name offline stored_paper ∅
                  {[ u "title" := lit "A paper"; u "id" := lit "2401.00001" ]}
                  stored_response ∅ eq_refl H1 H2) (lit "2401.00001") eq_refl).
Defined.

Lemma store_rejects_non_string_title_witness :
  is_str (PInt 5) = false
  ∧ store_paper_knowledge offline untitled_paper ∅
    = (Returned (failure_response (u "'int' object has no attribute 'encode'")), ∅).
Proof.
  assert (H : is_str (PInt 5) = false) by reflexivity.
  split; [exact H|].
  exact (store_rejects_non_string_title offline untitled_paper ∅
           {[ u "title" := PInt 5; u "id" := lit "2401.00001" ]} (PInt 5)
           eq_refl eq_refl H).
Defined.

Lemma store_counts_characters_witness :
  insights_as_text !! u "insights" = Some (PStr (u "abc"))
  ∧ args_get insights_as_text "techniques" (PList []) = PList []
  ∧ store_paper_knowledge offline insights_as_text ∅
    = (Returned [insights_as_text_response], ∅)
  ∧ field insights_as_text_response "success" = Some (PBool true)
  ∧ field insights_as_text_response "observations_count" = Some (PInt 7).
Proof.
  assert (H1 : insights_as_text !! u "insights" = Some (PStr (u "abc"))) by reflexivity.
  assert (H2 : args_get insights_as_text "techniques" (PList []) = PList []) by reflexivity.
  assert (H3 : store_paper_knowledge offline insights_as_text ∅
               = (Returned [insights_as_text_response], ∅)).
  { vm_compute. reflexivity. }
  assert (H4 : field insights_as_text_response "success" = Some (PBool true)) by reflexivity.
  split; [exact H1|]. split; [exact H2|]. split; [exact H3|]. split; [exact H4|].
  exact (store_counts_characters offline insights_as_text ∅ _ _ _ ∅ H1 H2 H3 H4).
Defined.

Lemma store_needs_string_authors_witness :
  Exists (λ v, is_str v = false) [lit "A. Author"; PInt 2]
  ∧ ∃ message,
      store_paper_knowledge offline numbered_authors ∅
      = (Returned (failure_response message), ∅).
Proof.
  assert (H : Exists (λ v, is_str v = false) [lit "A. Author"; PInt 2]).
  { apply Exists_cons_tl, Exists_cons_hd. reflexivity. }
  split; [exact H|].
  exact (store_needs_string_authors offline numbered_authors ∅
           {[ u "authors" := PList [lit "A. Author"; PInt 2] ]} _ eq_refl eq_refl H).
Defined.


Lemma cli_preview_witness :
  arxiv_results online (lit "agents") (default (PInt 5) None) Relevance
  = Returned [sample_result]
  ∧ cli_search.search_arxiv (arxiv_results online) (lit "agents") None
    = (cli_search.paper <$> [sample_result], []).
Proof.
  assert (H : arxiv_results online (lit "agents") (default (PInt 5) None) Relevance
              = Returned [sample_result]) by reflexivity.
  split; [exact H|].
  exact (proj1 (cli_preview (arxiv_results online) (lit "agents") None [sample_result] H)).
Defined.
